(** * perplexity: the chat completion client, request side and response side

  A shallow embedding of the Go package [perplexity] (client.go):
  [MarshalJSON], [ChatCompletion] and [handleStreamingResponse], together
  with the parts of the Go standard library they rest on
  ([bufio.Scanner] with the line splitter, [errors], [fmt.Errorf]).

  Go strings and byte slices are sequences of bytes: both are [string]
  here (a list of 8-bit characters).  [float64] is the kernel's binary64
  [float].  [int] and [int64] are [Z]; the code does no arithmetic on them. *)

From Stdlib Require Import String Ascii List ZArith NArith PeanoNat Bool Lia Floats.
Import ListNotations.
Open Scope string_scope.

Set Implicit Arguments.
Set Warnings "-register-all".

(** ** errors *)

(** A Go [error] value: made by [errors.New] or by [fmt.Errorf] without a
  wrapping verb ([errorString]), or by [fmt.Errorf] with [%w]
  ([wrapError], which keeps the wrapped error for [errors.Unwrap]). *)
Inductive error : Type :=
| errorString (s : string)
| wrapError (msg : string) (err : error).

(** [err.Error()] *)
Definition Error (e : error) : string :=
match e with
| errorString s => s
| wrapError msg _ => msg
end.

(** [errors.Unwrap(err)] *)
Definition Unwrap (e : error) : option error :=
match e with
| errorString _ => None
| wrapError _ err => Some err
end.

Module errors.
Definition New (text : string) : error := errorString text.
End errors.

Module fmt.
(** [fmt.Errorf(format + "%s", arg)] *)
Definition Errorf_s (format arg : string) : error := errorString (format ++ arg).
(** [fmt.Errorf(format + "%w", err)] *)
Definition Errorf_w (format : string) (err : error) : error :=
  wrapError (format ++ Error err) err.
End fmt.

(** A result of a fallible call [(v, err)]: the error on the left. *)
Definition result (A : Type) : Type := (error + A)%type.

(** ** strings *)

Module strings.
(** [strings.HasPrefix(s, prefix)] *)
Definition HasPrefix (s pre : string) : bool := String.prefix pre s.

(** whether [sub] occurs in [s] ([strings.Contains]) *)
Fixpoint Contains (s sub : string) : bool :=
  String.prefix sub s ||
  match s with
  | EmptyString => false
  | String _ rest => Contains rest sub
  end.
End strings.

(** [s[lo:hi]] for [lo <= hi <= len(s)] and [s[lo:]] *)
Definition slice_lo_hi (s : string) (lo hi : nat) : string := substring lo (hi - lo) s.
Definition slice_from (s : string) (lo : nat) : string := substring lo (String.length s - lo) s.

(** A Go slice value is nil or holds elements; [encoding/json] writes the
  nil slice as [null] and an empty one as [[]]. *)
Definition slice (A : Type) : Type := option (list A).

Definition elems {A} (s : slice A) : list A :=
match s with
| None => []
| Some l => l
end.

Definition len {A} (s : slice A) : nat := List.length (elems s).

(** ** bufio.Scanner with the default split function ScanLines *)

Module bufio.

(** [bufio.MaxScanTokenSize = 64 * 1024]: the size the scanner's buffer may
    grow to.  A token and its line terminator must fit in it. *)
Definition MaxScanTokenSize : N := 64 * 1024.

Definition ErrTooLong : error := errors.New "bufio.Scanner: token too long".

(** The state of a scanner over a reader.  [src] is what the reader still
    has to give (buffered or not); [srcErr] is what the reader reports once
    [src] is used up: [None] for [io.EOF], or a read failure.  The reader
    hands out every byte of [src] before it reports [srcErr], and it reports
    [srcErr] by a [Read] of its own, one that returns no bytes.  [err] is
    the scanner's sticky error as [Err()] shows it ([io.EOF] shows as nil)
    and [token] is the last token.

    A reader may also report its end together with its last bytes.  The
    scanner then learns of it one [Read] earlier: [Err()] shows a read
    failure already while the lines of that last [Read] are handed out, and
    a last line of exactly [MaxScanTokenSize] bytes that no newline ends is
    a token.  What is proved below of [ChatCompletion] and of
    [handleStreamingResponse] does not depend on which way the reader
    takes: where the two ways differ (a read failure with the sentinel
    line, a last line of exactly [MaxScanTokenSize] bytes) the statements
    keep to the cases in which they agree. *)
Record Scanner : Type := mkScanner {
  src : string;
  srcErr : option error;
  err : option error;
  token : string
}.

Definition NewScanner (data : string) (failure : option error) : Scanner :=
  {| src := data; srcErr := failure; err := None; token := "" |}.

Definition newline : ascii := "010"%char.
Definition carriage_return : ascii := "013"%char.

(** [bytes.IndexByte(data, '\n')], as the bytes before the first newline
    and the bytes after it. *)
Fixpoint cutLine (data : string) : option (string * string) :=
  match data with
  | EmptyString => None
  | String c rest =>
      if Ascii.eqb c newline then Some (EmptyString, rest)
      else match cutLine rest with
           | Some (line, after) => Some (String c line, after)
           | None => None
           end
  end.

(** [dropCR]: drops one trailing carriage return. *)
Fixpoint dropCR (data : string) : string :=
  match data with
  | EmptyString => EmptyString
  | String c EmptyString => if Ascii.eqb c carriage_return then EmptyString else data
  | String c rest => String c (dropCR rest)
  end.

(** Whether pending bytes that hold no line end leave room in a buffer of
    [MaxScanTokenSize] bytes: a full buffer with no token in it is
    [ErrTooLong]. *)
Definition fits (pending : string) : bool :=
  (N.of_nat (String.length pending) <? MaxScanTokenSize)%N.

(** [s.Scan()]: the answer and the scanner afterwards.
    - A newline among the pending bytes ends a token, unless the bytes
      before it already fill the buffer: then [Scan] stops with
      [ErrTooLong].
    - With no newline left, a full buffer is [ErrTooLong] again; otherwise
      the reader reports its end, which the scanner records, and the
      remaining bytes, when there are any, are the final token. *)
Definition Scan (s : Scanner) : bool * Scanner :=
  match cutLine (src s) with
  | Some (line, after) =>
      if fits line
      then (true, {| src := after; srcErr := srcErr s; err := err s;
                     token := dropCR line |})
      else (false, {| src := src s; srcErr := srcErr s; err := Some ErrTooLong;
                      token := token s |})
  | None =>
      if fits (src s)
      then
        match src s with
        | EmptyString =>
            (false, {| src := EmptyString; srcErr := srcErr s; err := srcErr s;
                       token := token s |})
        | String _ _ =>
            (true, {| src := EmptyString; srcErr := srcErr s; err := srcErr s;
                      token := dropCR (src s) |})
        end
      else (false, {| src := src s; srcErr := srcErr s; err := Some ErrTooLong;
                      token := token s |})
  end.

(** [s.Text()] and [s.Err()] *)
Definition Text (s : Scanner) : string := token s.
Definition Err (s : Scanner) : option error := err s.

End bufio.

(** ** encoding/json: the values the encoder writes *)

Module json.

(** A JSON text as the tree it denotes; an object keeps its members in the
    order the encoder writes them.  A [JString] holds the Go string. *)
Inductive Value : Type :=
| JNull
| JBool (b : bool)
| JInt (z : Z)
| JFloat (f : float)
| JString (s : string)
| JArray (items : list Value)
| JObject (members : list (string * Value)).

(** The members a struct field contributes: none when [omitempty] drops it. *)
Definition members : Type := list (string * Value).

(** The encoder refuses a float that is not finite: [UnsupportedValueError]
    with the text of [strconv.FormatFloat(f, 'g', -1, 64)]. *)
Definition UnsupportedValueError (f : float) : error :=
  errorString ("json: unsupported value: " ++
               (if PrimFloat.is_nan f then "NaN"
                else if PrimFloat.ltb f PrimFloat.zero then "-Inf" else "+Inf")).

Definition floatEncoder (f : float) : result Value :=
  if PrimFloat.is_nan f || PrimFloat.is_infinity f
  then inl (UnsupportedValueError f)
  else inr (JFloat f).

(** Fields by tag: [`json:"key"`] always writes the member,
    [`json:"key,omitempty"`] drops a false, 0 or empty value
    ([isEmptyValue]; a float is empty when it compares equal to 0). *)
Definition field (key : string) (v : Value) : result members := inr [(key, v)].

Definition field_bool_omitempty (key : string) (b : bool) : result members :=
  inr (if b then [(key, JBool true)] else []).

Definition field_int_omitempty (key : string) (z : Z) : result members :=
  inr (if (z =? 0)%Z then [] else [(key, JInt z)]).

Definition field_string_omitempty (key : string) (s : string) : result members :=
  inr (if String.eqb s "" then [] else [(key, JString s)]).

Definition field_float_omitempty (key : string) (f : float) : result members :=
  if PrimFloat.eqb f PrimFloat.zero then inr []
  else match floatEncoder f with
       | inl e => inl e
       | inr v => inr [(key, v)]
       end.

(** The fields of a struct in declaration order; the first field that fails
    to encode fails the whole value. *)
Fixpoint structEncoder (fields : list (result members)) : result members :=
  match fields with
  | [] => inr []
  | f :: rest =>
      match f with
      | inl e => inl e
      | inr ms =>
          match structEncoder rest with
          | inl e => inl e
          | inr ms' => inr (ms ++ ms')%list
          end
      end
  end.

(** [nil] slices are written [null]. *)
Definition sliceEncoder {A} (enc : A -> Value) (s : slice A) : Value :=
  match s with
  | None => JNull
  | Some l => JArray (map enc l)
  end.

(** The value under [key] in an object, as a decoder reads it: [None] when
    the value is no object or has no such member. *)
Definition lookup (key : string) (v : Value) : option Value :=
  match v with
  | JObject ms =>
      match find (fun kv => String.eqb (fst kv) key) ms with
      | Some kv => Some (snd kv)
      | None => None
      end
  | _ => None
  end.

(** The keys of an object's members, in order. *)
Definition keys (v : Value) : list string :=
  match v with
  | JObject ms => map fst ms
  | _ => []
  end.

(** [json.Marshal] reports the failure of a [MarshalJSON] method as a
    [MarshalerError] around it. *)
Definition MarshalerError (type : string) (e : error) : error :=
  wrapError ("json: error calling MarshalJSON for type " ++ type ++ ": " ++ Error e) e.

End json.

(** ** The data model (client.go) *)

Definition MessageRole : Type := string.
Definition MessageRoleSystem : MessageRole := "system".
Definition MessageRoleUser : MessageRole := "user".
Definition MessageRoleAssistant : MessageRole := "assistant".

Record Message : Type := {
  msg_Role : MessageRole;     (* `json:"role"` *)
  msg_Content : string        (* `json:"content"` *)
}.

Definition RecencyFilter : Type := string.
Definition RecencyFilterHour : RecencyFilter := "hour".
Definition RecencyFilterDay : RecencyFilter := "day".
Definition RecencyFilterWeek : RecencyFilter := "week".
Definition RecencyFilterMonth : RecencyFilter := "month".

Definition Model : Type := string.
Definition ModelLlama31SonarSmall128kOnline : Model := "llama-3.1-sonar-small-128k-online".
Definition ModelLlama31SonarLarge128kChat : Model := "llama-3.1-sonar-large-128k-chat".

Definition FinishReason : Type := string.
Definition FinishReasonStop : FinishReason := "stop".
Definition FinishReasonLength : FinishReason := "length".

Record Usage : Type := {
  usage_PromptTokens : Z;
  usage_CompletionTokens : Z;
  usage_TotalTokens : Z
}.

Record Choice : Type := {
  choice_Index : Z;
  choice_FinishReason : FinishReason;
  choice_Message : Message;
  choice_Delta : Message
}.

Record ChatCompletionResponse : Type := {
  resp_ID : string;
  resp_Model : string;
  resp_Object : string;
  resp_Created : Z;
  resp_Choices : slice Choice;
  resp_Usage : Usage
}.

(** The zero value [var response ChatCompletionResponse]. *)
Definition zeroMessage : Message := {| msg_Role := ""; msg_Content := "" |}.
Definition zeroUsage : Usage :=
  {| usage_PromptTokens := 0; usage_CompletionTokens := 0; usage_TotalTokens := 0 |}.
Definition zeroResponse : ChatCompletionResponse :=
  {| resp_ID := ""; resp_Model := ""; resp_Object := ""; resp_Created := 0;
     resp_Choices := None; resp_Usage := zeroUsage |}.

Record apiError : Type := {
  api_Error : string          (* `json:"error"` *)
}.

(** [ChatCompletionRequest].  [OnUpdateHandler] is the type of the caller's
    callbacks, [func(delta ChatCompletionResponse)]: the client can only
    test one against nil and call it, so the type is left open.  [req_Stream]
    is [None] for the nil callback. *)
Record ChatCompletionRequest (OnUpdateHandler : Type) : Type := {
  req_Model : Model;                       (* `json:"model"` *)
  req_Messages : slice Message;            (* `json:"messages"` *)
  req_MaxTokens : Z;                       (* `json:"max_tokens,omitempty"` *)
  req_Temperature : float;                 (* `json:"temperature,omitempty"` *)
  req_TopP : float;                        (* `json:"top_p,omitempty"` *)
  req_ReturnCitations : bool;              (* `json:"return_citations"` *)
  req_SearchDomainFilter : slice string;   (* `json:"search_domain_filter"` *)
  req_ReturnImages : bool;                 (* `json:"return_images"` *)
  req_ReturnRelatedQuestions : bool;       (* `json:"return_related_questions"` *)
  req_SearchRecencyFilter : RecencyFilter; (* `json:"search_recency_filter,omitempty"` *)
  req_TopK : Z;                            (* `json:"top_k,omitempty"` *)
  req_Stream : option OnUpdateHandler;     (* `json:"-"` *)
  req_PresencePenalty : float;             (* `json:"presence_penalty,omitempty"` *)
  req_FrequencyPenalty : float             (* `json:"frequency_penalty,omitempty"` *)
}.

(** ** net/http: requests, responses and the transport *)

Module http.

Definition StatusOK : Z := 200.
Definition MethodPost : string := "POST".

(** A header with canonical keys, one value each. *)
Definition Header : Type := list (string * string).

(** [h.Set(key, value)] *)
Definition Set_ (h : Header) (key value : string) : Header :=
  (filter (fun kv => negb (String.eqb (fst kv) key)) h ++ [(key, value)])%list.

(** [h.Get(key)]: the empty string when the key is absent. *)
Definition Get (h : Header) (key : string) : string :=
  match find (fun kv => String.eqb (fst kv) key) h with
  | Some kv => snd kv
  | None => ""
  end.

(** An outgoing request; its body is the JSON value whose text is sent. *)
Record Request (Context : Type) : Type := {
  Ctx : Context;
  Method : string;
  URL : string;
  ReqHeader : Header;
  ReqBody : json.Value
}.

(** A response as the transport hands it over.  [Body] is what the body
    stream holds and [BodyErr] how it ends: [None] for a clean end of data,
    or the error its [Read] reports after the last byte of [Body]. *)
Record Response : Type := {
  StatusCode : Z;
  Status : string;
  RespHeader : Header;
  Body : string;
  BodyErr : option error
}.

End http.

(** ** The client *)

Section Client.

(** [context.Context] values (never nil) and the caller's callbacks. *)
Variable Context : Type.
Variable OnUpdateHandler : Type.

(** [json.Unmarshal(data, &v)] into a zero [ChatCompletionResponse] and into
    a zero [apiError]: the decoded value, or the decoder's error. *)
Variable unmarshalResponse : string -> result ChatCompletionResponse.
Variable unmarshalApiError : string -> result apiError.

(** What [http.NewRequestWithContext] reports for a target URL: [None] when
    it parses. *)
Variable parseURL : string -> option error.

(** [Client].  The field [client] is the [*http.Client], taken as what its
    [Do] answers to a request. *)
Record Client : Type := {
  token : string;
  client : http.Request Context -> result http.Response;
  baseURL : string
}.

Definition DefaultBaseURL : string := "https://api.perplexity.ai".

Record ClientOptions : Type := {
  opt_HTTPClient : option (http.Request Context -> result http.Response);
  opt_BaseURL : string
}.

(** [NewClient(token, options)]; [defaultClient] is the [http.Client] built
    on the default transport with the timeouts of the source. *)
Definition NewClient (defaultClient : http.Request Context -> result http.Response)
    (token : string) (options : option ClientOptions) : Client :=
  let httpClient :=
    match options with
    | Some o => opt_HTTPClient o
    | None => None
    end in
  let httpClient :=
    match httpClient with
    | Some h => h
    | None => defaultClient
    end in
  let baseURL :=
    match options with
    | Some o => if negb (String.eqb (opt_BaseURL o) "") then opt_BaseURL o else DefaultBaseURL
    | None => DefaultBaseURL
    end in
  {| token := token; client := httpClient; baseURL := baseURL |}.

(** *** What a call does to the outside

    The transport and the body stream are doubles that count: [exchanges]
    are the requests handed to [c.client.Do], oldest first; [bodyReads]
    counts the reading calls made on [res.Body] ([io.ReadAll] and
    [scanner.Scan], which reads through the scanner); [bodyCloses] counts
    [res.Body.Close()]; [updates] are the callback invocations, oldest
    first, each with the callback and its argument. *)
Record World : Type := {
  exchanges : list (http.Request Context);
  bodyReads : nat;
  bodyCloses : nat;
  updates : list (OnUpdateHandler * ChatCompletionResponse)
}.

Definition M (A : Type) : Type := World -> A * World.

Definition ret {A} (a : A) : M A := fun w => (a, w).

Definition bind {A B} (m : M A) (k : A -> M B) : M B :=
  fun w => let (a, w') := m w in k a w'.

Notation "x <- c ;; k" := (bind c (fun x => k))
  (at level 61, c at next level, right associativity).
Notation "c ;;; k" := (bind c (fun _ => k))
  (at level 61, right associativity).

(** [defer d] at the head of a function body: [d] runs when the body has
    returned, and the body's result stands. *)
Definition defer {A} (d : M unit) (body : M A) : M A :=
  a <- body ;; d ;;; ret a.

(** [c.client.Do(httpReq)] *)
Definition Do (c : Client) (httpReq : http.Request Context) : M (result http.Response) :=
  fun w => (client c httpReq,
            {| exchanges := (exchanges w ++ [httpReq])%list; bodyReads := bodyReads w;
               bodyCloses := bodyCloses w; updates := updates w |}).

(** [res.Body.Close()] *)
Definition Close (res : http.Response) : M unit :=
  fun w => (tt, {| exchanges := exchanges w; bodyReads := bodyReads w;
                   bodyCloses := S (bodyCloses w); updates := updates w |}).

(** One reading call on [res.Body]. *)
Definition reading : M unit :=
  fun w => (tt, {| exchanges := exchanges w; bodyReads := S (bodyReads w);
                   bodyCloses := bodyCloses w; updates := updates w |}).

(** [io.ReadAll(res.Body)]: the bytes read, and the error unless the body
    ended cleanly. *)
Definition ReadAll (res : http.Response) : M (string * option error) :=
  reading ;;; ret (http.Body res, http.BodyErr res).

(** [scanner.Scan()] on a scanner over [res.Body]. *)
Definition Scan (s : bufio.Scanner) : M (bool * bufio.Scanner) :=
  reading ;;; ret (bufio.Scan s).

(** [onUpdate(response)] *)
Definition call (onUpdate : OnUpdateHandler) (response : ChatCompletionResponse) : M unit :=
  fun w => (tt, {| exchanges := exchanges w; bodyReads := bodyReads w;
                   bodyCloses := bodyCloses w;
                   updates := (updates w ++ [(onUpdate, response)])%list |}).

(** *** MarshalJSON *)

Definition messageEncoder (m : Message) : json.Value :=
  json.JObject [("role", json.JString (msg_Role m));
                ("content", json.JString (msg_Content m))].

(** [req.MarshalJSON()]: the anonymous struct of the embedded [*Alias] (the
    fields of the request under their tags, [Stream] with its tag ["-"]
    left out) followed by [Stream bool `json:"stream,omitempty"`], set to
    [req.Stream != nil]. *)
Definition MarshalJSON (req : ChatCompletionRequest OnUpdateHandler) : result json.Value :=
  match json.structEncoder
          [ json.field "model" (json.JString (req_Model req));
            json.field "messages" (json.sliceEncoder messageEncoder (req_Messages req));
            json.field_int_omitempty "max_tokens" (req_MaxTokens req);
            json.field_float_omitempty "temperature" (req_Temperature req);
            json.field_float_omitempty "top_p" (req_TopP req);
            json.field "return_citations" (json.JBool (req_ReturnCitations req));
            json.field "search_domain_filter"
              (json.sliceEncoder json.JString (req_SearchDomainFilter req));
            json.field "return_images" (json.JBool (req_ReturnImages req));
            json.field "return_related_questions"
              (json.JBool (req_ReturnRelatedQuestions req));
            json.field_string_omitempty "search_recency_filter" (req_SearchRecencyFilter req);
            json.field_int_omitempty "top_k" (req_TopK req);
            json.field_float_omitempty "presence_penalty" (req_PresencePenalty req);
            json.field_float_omitempty "frequency_penalty" (req_FrequencyPenalty req);
            json.field_bool_omitempty "stream"
              (match req_Stream req with Some _ => true | None => false end) ]
  with
  | inl e => inl e
  | inr ms => inr (json.JObject ms)
  end.

(** [json.Marshal(&req)]: through the pointer, so [MarshalJSON] is used. *)
Definition Marshal (req : ChatCompletionRequest OnUpdateHandler) : result json.Value :=
  match MarshalJSON req with
  | inl e => inl (json.MarshalerError "*perplexity.ChatCompletionRequest" e)
  | inr v => inr v
  end.

(** [http.NewRequestWithContext(ctx, method, url, body)] *)
Definition NewRequestWithContext (ctx : Context) (method url : string) (body : json.Value)
  : result (http.Request Context) :=
  match parseURL url with
  | Some e => inl e
  | None => inr {| http.Ctx := ctx; http.Method := method; http.URL := url;
                   http.ReqHeader := []; http.ReqBody := body |}
  end.

Definition Header_Set (r : http.Request Context) (key value : string) : http.Request Context :=
  {| http.Ctx := http.Ctx r; http.Method := http.Method r; http.URL := http.URL r;
     http.ReqHeader := http.Set_ (http.ReqHeader r) key value;
     http.ReqBody := http.ReqBody r |}.

(** *** handleStreamingResponse *)

(** How the reading loop is left: by running off its end ([Scan] answered
    false, or [break]), with the scanner as it then is, or by [return err]
    from inside. *)
Inductive LoopExit : Type :=
| Fallthrough (scanner : bufio.Scanner)
| Return (err : error).

(** [for scanner.Scan() { ... }].  Every round that goes on has taken at
    least one byte off the scanner's source, so [fuel] above the length of
    the body is never used up (see [streamLoop_fuel]). *)
Fixpoint streamLoop (fuel : nat) (onUpdate : OnUpdateHandler) (scanner : bufio.Scanner)
  : M LoopExit :=
  match fuel with
  | O => ret (Fallthrough scanner)
  | S fuel' =>
      r <- Scan scanner ;;
      let (more, scanner) := r in
      if negb more then ret (Fallthrough scanner) else
      let line := bufio.Text scanner in
      (* Skip empty lines *)
      if String.eqb line "" then streamLoop fuel' onUpdate scanner else
      (* Handle the end of the stream *)
      if String.eqb line "data: [DONE]" then ret (Fallthrough scanner) else
      (* Check if the line starts with "data: " *)
      if (6 <=? String.length line)%nat && String.eqb (slice_lo_hi line 0 6) "data: " then
        let jsonData := slice_from line 6 in
        match unmarshalResponse jsonData with
        | inl err =>
            ret (Return (fmt.Errorf_w "failed to unmarshal streaming event: " err))
        | inr response =>
            call onUpdate response ;;;
            streamLoop fuel' onUpdate scanner
        end
      else streamLoop fuel' onUpdate scanner
  end.

Definition handleStreamingResponse (res : http.Response) (onUpdate : option OnUpdateHandler)
  : M (option error) :=
  defer (Close res)
    (match onUpdate with
     | None => ret (Some (errors.New "onUpdate handler is required for streaming responses"))
     | Some onUpdate =>
         let scanner := bufio.NewScanner (http.Body res) (http.BodyErr res) in
         out <- streamLoop (S (String.length (http.Body res))) onUpdate scanner ;;
         match out with
         | Return err => ret (Some err)
         | Fallthrough scanner =>
             match bufio.Err scanner with
             | Some err => ret (Some (fmt.Errorf_w "error reading streaming response: " err))
             | None => ret None
             end
         end
     end).

(** *** ChatCompletion *)

(** Whether a content type denotes a Server-Sent Events stream. *)
Definition isEventStream (contentType : string) : bool :=
  String.eqb contentType "text/event-stream" ||
  strings.HasPrefix contentType "text/event-stream;".

(** The request checks at the head of [ChatCompletion]: the error of the
    first check that fails. *)
Definition validate (req : ChatCompletionRequest OnUpdateHandler) : option error :=
  if String.eqb (req_Model req) "" then
    Some (errors.New "model is required")
  else if (len (req_Messages req) =? 0)%nat then
    Some (errors.New "at least one message is required")
  else if negb (String.eqb
                  (msg_Role (nth (len (req_Messages req) - 1) (elems (req_Messages req)) zeroMessage))
                  MessageRoleUser) then
    Some (errors.New "the last message must be from the user")
  else if negb (PrimFloat.eqb (req_PresencePenalty req) PrimFloat.zero) &&
          negb (PrimFloat.eqb (req_FrequencyPenalty req) PrimFloat.zero) then
    Some (errors.New "PresencePenalty and FrequencyPenalty are incompatible; only one should be set")
  else None.

(** The part of [ChatCompletion] after [defer res.Body.Close()]: the status
    check, the content type and the two ways of reading the body. *)
Definition receive (res : http.Response) (req : ChatCompletionRequest OnUpdateHandler)
  : M (option ChatCompletionResponse * option error) :=
  (* Check for HTTP errors *)
  if negb (http.StatusCode res =? http.StatusOK)%Z then
    rd <- ReadAll res ;;
    let (bodyBytes, _) := rd in
    match unmarshalApiError bodyBytes with
    | inr e =>
        if negb (String.eqb (api_Error e) "")
        then ret (None, Some (fmt.Errorf_s "API error: " (api_Error e)))
        else ret (None, Some (fmt.Errorf_s "unexpected status code: " (http.Status res)))
    | inl _ =>
        ret (None, Some (fmt.Errorf_s "unexpected status code: " (http.Status res)))
    end
  else
  (* Check if the response is a Server-Sent Events stream *)
  let contentType := http.Get (http.RespHeader res) "Content-Type" in
  if isEventStream contentType then
    match req_Stream req with
    | None =>
        ret (None, Some (errors.New "streaming response received but no stream handler provided"))
    | Some _ =>
        err <- handleStreamingResponse res (req_Stream req) ;;
        ret (None, err)
    end
  else
  (* Read and unmarshal the response body *)
  rd <- ReadAll res ;;
  let (bodyBytes, err) := rd in
  match err with
  | Some err => ret (None, Some err)
  | None =>
      match unmarshalResponse bodyBytes with
      | inl err => ret (None, Some err)
      | inr response => ret (Some response, None)
      end
  end.

(** [c.ChatCompletion(ctx, req)]: the response pointer ([None] for nil) and
    the error ([None] for nil). *)
Definition ChatCompletion (c : Client) (ctx : Context) (req : ChatCompletionRequest OnUpdateHandler)
  : M (option ChatCompletionResponse * option error) :=
  let url := baseURL c ++ "/chat/completions" in
  (* Validate the request *)
  match validate req with
  | Some err => ret (None, Some err)
  | None =>
  (* Marshal the payload to JSON *)
  match Marshal req with
  | inl err => ret (None, Some err)
  | inr jsonData =>
  (* Create the HTTP request with the provided context *)
  match NewRequestWithContext ctx http.MethodPost url jsonData with
  | inl err => ret (None, Some err)
  | inr httpReq =>
  (* Set headers *)
  let httpReq := Header_Set httpReq "Authorization" ("Bearer " ++ token c) in
  let httpReq := Header_Set httpReq "Content-Type" "application/json" in
  (* Execute the HTTP request *)
  r <- Do c httpReq ;;
  match r with
  | inl err => ret (None, Some err)
  | inr res => defer (Close res) (receive res req)
  end
  end
  end
  end.

End Client.

(** ** Vocabulary of the properties *)

Section Vocabulary.

Variable Context : Type.
Variable OnUpdateHandler : Type.
Variable unmarshalResponse : string -> result ChatCompletionResponse.
Variable parseURL : string -> option error.

(** What one round of the reading loop does with the line it was given. *)
Inductive LineAction : Type :=
| Skip                                      (* the loop goes on, nothing else *)
| Stop                                      (* break *)
| Fail (err : error)                        (* return err *)
| Deliver (response : ChatCompletionResponse). (* onUpdate(response), then go on *)

Definition lineAction (line : string) : LineAction :=
  if String.eqb line "" then Skip
  else if String.eqb line "data: [DONE]" then Stop
  else if (6 <=? String.length line)%nat && String.eqb (slice_lo_hi line 0 6) "data: " then
    match unmarshalResponse (slice_from line 6) with
    | inl err => Fail (fmt.Errorf_w "failed to unmarshal streaming event: " err)
    | inr response => Deliver response
    end
  else Skip.

(** An empty line, or a line that is neither the sentinel nor prefixed with
    ["data: "]. *)
Definition ignorable (line : string) : bool :=
  String.eqb line "" ||
  (negb (String.eqb line "data: [DONE]") && negb (strings.HasPrefix line "data: ")).

(** A line prefixed with ["data: "] other than the sentinel. *)
Definition isDataLine (line : string) : bool :=
  strings.HasPrefix line "data: " && negb (String.eqb line "data: [DONE]").

(** A byte sequence with no newline in it: what stands between two line
    ends of a body. *)
Fixpoint singleLine (s : string) : bool :=
  match s with
  | EmptyString => true
  | String c rest => negb (Ascii.eqb c bufio.newline) && singleLine rest
  end.

Definition LF : string := String bufio.newline EmptyString.
Definition CR : string := String bufio.carriage_return EmptyString.

(** The body made of the lines [ls], each ended by a newline, and then
    [rest]. *)
Fixpoint feed (ls : list string) (rest : string) : string :=
  match ls with
  | [] => rest
  | l :: ls' => l ++ LF ++ feed ls' rest
  end.

(** A line as it stands in the body (a carriage return before the newline
    belongs to the line end) that the scanner can hand to the loop. *)
Definition scannable (l : string) : Prop :=
  singleLine l = true /\ bufio.fits l = true.

(** A line the loop passes over and goes on: ignored, or a data line whose
    payload decodes. *)
Definition passes (l : string) : Prop :=
  scannable l /\
  match lineAction (bufio.dropCR l) with
  | Skip | Deliver _ => True
  | Stop | Fail _ => False
  end.

(** The events of the data lines among [ls], in line order. *)
Fixpoint delivered (ls : list string) : list ChatCompletionResponse :=
  match ls with
  | [] => []
  | l :: ls' =>
      match lineAction (bufio.dropCR l) with
      | Deliver response => response :: delivered ls'
      | _ => delivered ls'
      end
  end.

(** The line ["data: " + payload]. *)
Definition dataLine (payload : string) : string := "data: " ++ payload.

(** A payload that is a valid event: its data line can be scanned, and what
    the loop hands to the decoder (the payload without the carriage return
    of the line end) is not the sentinel's text and decodes to [r]. *)
Definition validEvent (payload : string) (r : ChatCompletionResponse) : Prop :=
  scannable (dataLine payload) /\
  bufio.dropCR payload <> "[DONE]" /\
  unmarshalResponse (bufio.dropCR payload) = inr r.

(** A payload that is malformed: the decoder rejects it with [e]. *)
Definition malformedEvent (payload : string) (e : error) : Prop :=
  scannable (dataLine payload) /\
  bufio.dropCR payload <> "[DONE]" /\
  unmarshalResponse (bufio.dropCR payload) = inl e.

(** The sentinel line as it stands in a body. *)
Definition sentinelLine (l : string) : Prop :=
  l = "data: [DONE]" \/ l = "data: [DONE]" ++ CR.

(** The request [ChatCompletion] hands to the transport, or the error it
    returns before any exchange. *)
Definition prepared (c : Client Context) (ctx : Context)
    (req : ChatCompletionRequest OnUpdateHandler) : result (http.Request Context) :=
  match validate req with
  | Some err => inl err
  | None =>
      match Marshal req with
      | inl err => inl err
      | inr jsonData =>
          match NewRequestWithContext parseURL ctx http.MethodPost
                  (baseURL c ++ "/chat/completions") jsonData with
          | inl err => inl err
          | inr httpReq =>
              inr (Header_Set
                     (Header_Set httpReq "Authorization" ("Bearer " ++ token c))
                     "Content-Type" "application/json")
          end
      end
  end.

(** [req] with another callback in [Stream]. *)
Definition withStream (onUpdate : option OnUpdateHandler)
    (req : ChatCompletionRequest OnUpdateHandler) : ChatCompletionRequest OnUpdateHandler :=
  {| req_Model := req_Model req;
     req_Messages := req_Messages req;
     req_MaxTokens := req_MaxTokens req;
     req_Temperature := req_Temperature req;
     req_TopP := req_TopP req;
     req_ReturnCitations := req_ReturnCitations req;
     req_SearchDomainFilter := req_SearchDomainFilter req;
     req_ReturnImages := req_ReturnImages req;
     req_ReturnRelatedQuestions := req_ReturnRelatedQuestions req;
     req_SearchRecencyFilter := req_SearchRecencyFilter req;
     req_TopK := req_TopK req;
     req_Stream := onUpdate;
     req_PresencePenalty := req_PresencePenalty req;
     req_FrequencyPenalty := req_FrequencyPenalty req |}.

(** A float64 that compares unequal to 0 ([x != 0.0]). *)
Definition nonZero (x : float) : Prop := PrimFloat.eqb x PrimFloat.zero = false.

(** A request that breaks one of the four rules. *)
Definition violatesRule (req : ChatCompletionRequest OnUpdateHandler) : Prop :=
  req_Model req = ""
  \/ len (req_Messages req) = 0
  \/ (exists earlier last, elems (req_Messages req) = (earlier ++ [last])%list
                           /\ msg_Role last <> MessageRoleUser)
  \/ (nonZero (req_PresencePenalty req) /\ nonZero (req_FrequencyPenalty req)).

(** The four validation errors. *)
Definition validationErrors : list error :=
  [ errors.New "model is required";
    errors.New "at least one message is required";
    errors.New "the last message must be from the user";
    errors.New "PresencePenalty and FrequencyPenalty are incompatible; only one should be set" ].

(** The world after [n] more reading calls on the body and the callback
    invocations [us]. *)
Definition after (n : nat) (us : list (OnUpdateHandler * ChatCompletionResponse))
    (w : World Context OnUpdateHandler) : World Context OnUpdateHandler :=
  {| exchanges := exchanges w; bodyReads := n + bodyReads w;
     bodyCloses := bodyCloses w; updates := (updates w ++ us)%list |}.

(** The world after [httpReq] was handed to the transport. *)
Definition sent (httpReq : http.Request Context)
    (w : World Context OnUpdateHandler) : World Context OnUpdateHandler :=
  {| exchanges := (exchanges w ++ [httpReq])%list; bodyReads := bodyReads w;
     bodyCloses := bodyCloses w; updates := updates w |}.

(** The world after [k] more calls of [res.Body.Close()]. *)
Definition closed (k : nat)
    (w : World Context OnUpdateHandler) : World Context OnUpdateHandler :=
  {| exchanges := exchanges w; bodyReads := bodyReads w;
     bodyCloses := k + bodyCloses w; updates := updates w |}.

(** The wire keys of a request, in the order [MarshalJSON] writes them. *)
Definition wireKeys : list string :=
  [ "model"; "messages"; "max_tokens"; "temperature"; "top_p"; "return_citations";
    "search_domain_filter"; "return_images"; "return_related_questions";
    "search_recency_filter"; "top_k"; "presence_penalty"; "frequency_penalty"; "stream" ].

(** What the struct tags of [ChatCompletionRequest] and of the anonymous
    struct of [MarshalJSON] say of each wire key: the value written under
    it, or nothing for an [omitempty] field that is false, 0 or empty.  The
    callback has the tag ["-"] and no key. *)
Definition wireSlots (req : ChatCompletionRequest OnUpdateHandler)
  : list (string * option json.Value) :=
  [ ("model", Some (json.JString (req_Model req)));
    ("messages", Some (json.sliceEncoder messageEncoder (req_Messages req)));
    ("max_tokens",
     if (req_MaxTokens req =? 0)%Z then None else Some (json.JInt (req_MaxTokens req)));
    ("temperature",
     if PrimFloat.eqb (req_Temperature req) PrimFloat.zero then None
     else Some (json.JFloat (req_Temperature req)));
    ("top_p",
     if PrimFloat.eqb (req_TopP req) PrimFloat.zero then None
     else Some (json.JFloat (req_TopP req)));
    ("return_citations", Some (json.JBool (req_ReturnCitations req)));
    ("search_domain_filter",
     Some (json.sliceEncoder json.JString (req_SearchDomainFilter req)));
    ("return_images", Some (json.JBool (req_ReturnImages req)));
    ("return_related_questions", Some (json.JBool (req_ReturnRelatedQuestions req)));
    ("search_recency_filter",
     if String.eqb (req_SearchRecencyFilter req) "" then None
     else Some (json.JString (req_SearchRecencyFilter req)));
    ("top_k",
     if (req_TopK req =? 0)%Z then None else Some (json.JInt (req_TopK req)));
    ("presence_penalty",
     if PrimFloat.eqb (req_PresencePenalty req) PrimFloat.zero then None
     else Some (json.JFloat (req_PresencePenalty req)));
    ("frequency_penalty",
     if PrimFloat.eqb (req_FrequencyPenalty req) PrimFloat.zero then None
     else Some (json.JFloat (req_FrequencyPenalty req)));
    ("stream",
     match req_Stream req with
     | Some _ => Some (json.JBool true)
     | None => None
     end) ].

(** The value the tags put under [key]: [None] when nothing is written
    under it, and for every key that is no wire key. *)
Definition wireMember (req : ChatCompletionRequest OnUpdateHandler) (key : string)
  : option json.Value :=
  match find (fun slot => String.eqb (fst slot) key) (wireSlots req) with
  | Some slot => snd slot
  | None => None
  end.

Definition isSome {A} (o : option A) : bool :=
  match o with
  | Some _ => true
  | None => false
  end.

(** The float fields of a request, in the order they are written. *)
Definition floatFields (req : ChatCompletionRequest OnUpdateHandler) : list float :=
  [ req_Temperature req; req_TopP req; req_PresencePenalty req; req_FrequencyPenalty req ].

(** The four rules of the request checks, all kept. *)
Definition wellFormed (req : ChatCompletionRequest OnUpdateHandler) : Prop :=
  req_Model req <> ""
  /\ (exists earlier last, elems (req_Messages req) = (earlier ++ [last])%list
                           /\ msg_Role last = MessageRoleUser)
  /\ (PrimFloat.eqb (req_PresencePenalty req) PrimFloat.zero = true
      \/ PrimFloat.eqb (req_FrequencyPenalty req) PrimFloat.zero = true).


(** The error [handleStreamingResponse] returns for the way its loop was
    left: the error returned from inside the loop, or the scanner's error,
    wrapped, when the loop ran off its end. *)
Definition loopError (out : LoopExit) : option error :=
  match out with
  | Return err => Some err
  | Fallthrough scanner =>
      match bufio.Err scanner with
      | Some err => Some (fmt.Errorf_w "error reading streaming response: " err)
      | None => None
      end
  end.

End Vocabulary.

(** ** Sample collaborators

    Concrete stand-ins for what the client is given from outside, used where
    a property is shown at a concrete input.  The two decoders answer as
    [encoding/json] does on the texts listed with them, and reject every
    other text; they are not a model of the decoder beyond these texts. *)

Module sample.

Definition dq : string := String "034"%char EmptyString.
Definition quoted (s : string) : string := dq ++ s ++ dq.

Fixpoint all (p : ascii -> bool) (s : string) : bool :=
  match s with
  | EmptyString => true
  | String c rest => p c && all p rest
  end.

Definition isSpace (c : ascii) : bool := Ascii.eqb c " "%char.

Definition isPlain (c : ascii) : bool :=
  let n := nat_of_ascii c in
  ((97 <=? n)%nat && (n <=? 122)%nat) || Ascii.eqb c " "%char.

Definition stripPrefix (pre s : string) : option string :=
  if String.prefix pre s
  then Some (substring (String.length pre) (String.length s - String.length pre) s)
  else None.

Definition stripSuffix (suf s : string) : option string :=
  let n := String.length s - String.length suf in
  if String.eqb (substring n (String.length suf) s) suf
  then Some (substring 0 n s)
  else None.

(** The text between [open] and [close], when [s] has this shape. *)
Definition between (open close s : string) : option string :=
  match stripPrefix open s with
  | Some rest => stripSuffix close rest
  | None => None
  end.

Definition SyntaxError (msg : string) : error := errorString msg.

Definition withID (id : string) : ChatCompletionResponse :=
  {| resp_ID := id; resp_Model := ""; resp_Object := ""; resp_Created := 0;
     resp_Choices := None; resp_Usage := zeroUsage |}.

(** The event text [{"id":"<id>"}]. *)
Definition event (id : string) : string :=
  "{" ++ quoted "id" ++ ":" ++ quoted id ++ "}".

(** [json.Unmarshal] into a zero [ChatCompletionResponse], on:
    - an opening brace, spaces, a closing brace: the zero value;
    - [{"id":"<id>"}] with [id] of lower-case letters and spaces: the zero
      value with that [ID];
    and rejecting the rest, among it the texts [{] and [[DONE]], which are
    no JSON. *)
Definition unmarshalResponse (data : string) : result ChatCompletionResponse :=
  match between "{" "}" data with
  | Some inner =>
      if all isSpace inner then inr zeroResponse
      else match between (quoted "id" ++ ":" ++ dq) dq inner with
           | Some id =>
               if all isPlain id then inr (withID id)
               else inl (SyntaxError "invalid character in string literal")
           | None => inl (SyntaxError "invalid character looking for beginning of object key string")
           end
  | None =>
      if String.eqb data "{" || String.eqb data ""
      then inl (SyntaxError "unexpected end of JSON input")
      else inl (SyntaxError "invalid character looking for beginning of value")
  end.

(** The error text [{"error":"<message>"}]. *)
Definition errorBody (message : string) : string :=
  "{" ++ quoted "error" ++ ":" ++ quoted message ++ "}".

(** [json.Unmarshal] into a zero [apiError], on [{}] (the zero value) and on
    [{"error":"<message>"}] with a message of lower-case letters and
    spaces; the rest is rejected. *)
Definition unmarshalApiError (data : string) : result apiError :=
  match between "{" "}" data with
  | Some inner =>
      if all isSpace inner then inr {| api_Error := "" |}
      else match between (quoted "error" ++ ":" ++ dq) dq inner with
           | Some message =>
               if all isPlain message then inr {| api_Error := message |}
               else inl (SyntaxError "invalid character in string literal")
           | None => inl (SyntaxError "invalid character looking for beginning of object key string")
           end
  | None => inl (SyntaxError "invalid character looking for beginning of value")
  end.

(** Every target URL parses. *)
Definition parseURL (url : string) : option error := None.

(** Callbacks are told apart by a name; the context is the background one. *)
Definition Handler : Type := string.
Definition Ctx : Type := unit.
Definition Background : Ctx := tt.

(** A transport that answers every request with [res]. *)
Definition clientAnswering (res : http.Response) : Client Ctx :=
  {| token := "secret"; client := fun _ => inr res; baseURL := DefaultBaseURL |}.

Definition response (code : Z) (status contentType body : string) : http.Response :=
  {| http.StatusCode := code; http.Status := status;
     http.RespHeader := [("Content-Type", contentType)];
     http.Body := body; http.BodyErr := None |}.

(** A request that passes the checks, with callback [stream]. *)
Definition request (stream : option Handler) : ChatCompletionRequest Handler :=
  {| req_Model := ModelLlama31SonarLarge128kChat;
     req_Messages := Some [ {| msg_Role := MessageRoleUser; msg_Content := "Tell me a joke." |} ];
     req_MaxTokens := 0;
     req_Temperature := PrimFloat.zero;
     req_TopP := PrimFloat.zero;
     req_ReturnCitations := false;
     req_SearchDomainFilter := None;
     req_ReturnImages := false;
     req_ReturnRelatedQuestions := false;
     req_SearchRecencyFilter := "";
     req_TopK := 0;
     req_Stream := stream;
     req_PresencePenalty := PrimFloat.zero;
     req_FrequencyPenalty := PrimFloat.zero |}.

(** Nothing sent, read, closed or called yet. *)
Definition w0 : World Ctx Handler :=
  {| exchanges := []; bodyReads := 0; bodyCloses := 0; updates := [] |}.

(** [2^k] spaces. *)
Definition spaces (k : nat) : string := Nat.iter k (fun s => s ++ s) " ".

(** A JSON object of [65538] bytes: an opening brace, [65536] spaces, a
    closing brace. *)
Definition paddedObject : string := "{" ++ spaces 16 ++ "}".

(** A request with optional fields set. *)
Definition tuned (stream : option Handler) : ChatCompletionRequest Handler :=
  {| req_Model := ModelLlama31SonarSmall128kOnline;
     req_Messages :=
       Some [ {| msg_Role := MessageRoleSystem; msg_Content := "Be precise and concise." |};
              {| msg_Role := MessageRoleUser; msg_Content := "How many stars are there?" |} ];
     req_MaxTokens := 100;
     req_Temperature := 0.5%float;
     req_TopP := PrimFloat.zero;
     req_ReturnCitations := true;
     req_SearchDomainFilter := Some ["perplexity.ai"];
     req_ReturnImages := false;
     req_ReturnRelatedQuestions := false;
     req_SearchRecencyFilter := RecencyFilterMonth;
     req_TopK := 0;
     req_Stream := stream;
     req_PresencePenalty := PrimFloat.zero;
     req_FrequencyPenalty := 1%float |}.

(** The sample request with a temperature that is not a number. *)
Definition feverish : ChatCompletionRequest Handler :=
  {| req_Model := ModelLlama31SonarLarge128kChat;
     req_Messages := Some [ {| msg_Role := MessageRoleUser; msg_Content := "Tell me a joke." |} ];
     req_MaxTokens := 0;
     req_Temperature := PrimFloat.nan;
     req_TopP := PrimFloat.zero;
     req_ReturnCitations := false;
     req_SearchDomainFilter := None;
     req_ReturnImages := false;
     req_ReturnRelatedQuestions := false;
     req_SearchRecencyFilter := "";
     req_TopK := 0;
     req_Stream := None;
     req_PresencePenalty := PrimFloat.zero;
     req_FrequencyPenalty := PrimFloat.zero |}.

(** A transport that fails every request with [err]. *)
Definition clientFailing (err : error) : Client Ctx :=
  {| token := "secret"; client := fun _ => inl err; baseURL := DefaultBaseURL |}.

(** A response whose body stream breaks off with [err] after [body]. *)
Definition broken (contentType body : string) (err : error) : http.Response :=
  {| http.StatusCode := 200; http.Status := "200 OK";
     http.RespHeader := [("Content-Type", contentType)];
     http.Body := body; http.BodyErr := Some err |}.

Definition connectionReset : error := errorString "read: connection reset by peer".

End sample.

(** * Properties *)

Unset Implicit Arguments.

(** ** The line scanner *)

Lemma cutLine_feed (l rest : string) :
  singleLine l = true -> bufio.cutLine (l ++ LF ++ rest) = Some (l, rest).
Proof.
  induction l as [|c l IH]; cbn; intro H.
  - reflexivity.
  - apply andb_true_iff in H. destruct H as [Hc Hl].
    apply negb_true_iff in Hc. rewrite Hc.
    unfold LF in IH. cbn in IH. rewrite (IH Hl). reflexivity.
Qed.

Lemma cutLine_length (s l r : string) :
  bufio.cutLine s = Some (l, r) ->
  String.length s = S (String.length l + String.length r).
Proof.
  revert l r. induction s as [|c s IH]; cbn; intros l r H.
  - discriminate.
  - destruct (Ascii.eqb c bufio.newline).
    + inversion H; subst. reflexivity.
    + destruct (bufio.cutLine s) as [[l' r']|]; [|discriminate].
      inversion H; subst. cbn. rewrite (IH l' r eq_refl). reflexivity.
Qed.

(** A line of the body that fits the buffer is the next token, without its
    carriage return; the scanner's error is as before. *)
Lemma Scan_line (s : bufio.Scanner) (l rest : string) :
  bufio.src s = l ++ LF ++ rest ->
  scannable l ->
  bufio.Scan s = (true, {| bufio.src := rest; bufio.srcErr := bufio.srcErr s;
                           bufio.err := bufio.err s; bufio.token := bufio.dropCR l |}).
Proof.
  intros Hsrc [Hl Hfit]. unfold bufio.Scan.
  rewrite Hsrc, (cutLine_feed _ rest Hl), Hfit. reflexivity.
Qed.

(** A round that yields a token takes at least one byte off the source. *)
Lemma Scan_shrinks (s s' : bufio.Scanner) :
  bufio.Scan s = (true, s') ->
  String.length (bufio.src s') < String.length (bufio.src s).
Proof.
  unfold bufio.Scan. intro H.
  destruct (bufio.cutLine (bufio.src s)) as [[l r]|] eqn:Hcut.
  - destruct (bufio.fits l); inversion H; subst; cbn.
    rewrite (cutLine_length _ _ _ Hcut). lia.
  - destruct (bufio.fits (bufio.src s)); [|discriminate].
    destruct (bufio.src s); inversion H; subst; cbn. lia.
Qed.

(** The slicing test of the loop is [strings.HasPrefix]. *)
Lemma prefix_slice (line : string) :
  (6 <=? String.length line)%nat && String.eqb (slice_lo_hi line 0 6) "data: "
  = strings.HasPrefix line "data: ".
Proof.
  unfold strings.HasPrefix, slice_lo_hi.
  destruct (String.prefix "data: " line) eqn:Hp.
  - apply String.prefix_correct in Hp. cbn [String.length Nat.sub] in *.
    rewrite Hp, String.eqb_refl, andb_true_r.
    destruct line as [|c1 [|c2 [|c3 [|c4 [|c5 [|c6 rest]]]]]];
      cbn in Hp; try discriminate. reflexivity.
  - destruct (String.eqb (substring 0 (6 - 0) line) "data: ") eqn:He.
    + apply String.eqb_eq in He.
      assert (String.prefix "data: " line = true) as Hp'
        by (apply String.prefix_correct; exact He).
      congruence.
    + apply andb_false_r.
Qed.

(** ** The reading loop *)

Section Loop.

Variable Context : Type.
Variable OnUpdateHandler : Type.
Variable unmarshalResponse : string -> result ChatCompletionResponse.

Lemma after_0 (w : World Context OnUpdateHandler) : after 0 [] w = w.
Proof. destruct w. unfold after. cbn. rewrite app_nil_r. reflexivity. Qed.

Lemma after_after (n m : nat) (us vs : list (OnUpdateHandler * ChatCompletionResponse))
    (w : World Context OnUpdateHandler) :
  after n us (after m vs w) = after (m + n) (vs ++ us) w.
Proof.
  destruct w. unfold after. cbn. f_equal; [lia | apply eq_sym, app_assoc].
Qed.

(** One round of the loop on a token: what [lineAction] says. *)
Lemma streamLoop_step (fuel : nat) (h : OnUpdateHandler) (s s' : bufio.Scanner)
    (w : World Context OnUpdateHandler) :
  bufio.Scan s = (true, s') ->
  streamLoop unmarshalResponse (S fuel) h s w =
  match lineAction unmarshalResponse (bufio.Text s') with
  | Skip => streamLoop unmarshalResponse fuel h s' (after 1 [] w)
  | Stop => (Fallthrough s', after 1 [] w)
  | Fail e => (Return e, after 1 [] w)
  | Deliver r => streamLoop unmarshalResponse fuel h s' (after 1 [(h, r)] w)
  end.
Proof.
  intro HS. cbn [streamLoop]. unfold bind at 1. unfold Scan, bind, reading, ret.
  rewrite HS. cbn [negb]. unfold lineAction.
  assert (forall x : list (OnUpdateHandler * ChatCompletionResponse),
            {| exchanges := exchanges w; bodyReads := S (bodyReads w);
                       bodyCloses := bodyCloses w; updates := x |} = after 1 [] (
                    {| exchanges := exchanges w; bodyReads := bodyReads w;
                       bodyCloses := bodyCloses w; updates := x |})) as Hw.
  { intro x. unfold after. cbn. rewrite app_nil_r. reflexivity. }
  destruct (String.eqb (bufio.Text s') ""). { destruct w; apply f_equal, Hw. }
  destruct (String.eqb (bufio.Text s') "data: [DONE]"). { destruct w; apply f_equal, Hw. }
  destruct ((6 <=? String.length (bufio.Text s'))%nat &&
            String.eqb (slice_lo_hi (bufio.Text s') 0 6) "data: ").
  - destruct (unmarshalResponse (slice_from (bufio.Text s') 6)).
    + destruct w; apply f_equal, Hw.
    + unfold call. destruct w; cbn. reflexivity.
  - destruct w; apply f_equal, Hw.
Qed.

(** Fuel above the length of what is left to scan is never used up: the
    loop does the same with any such fuel. *)
Lemma streamLoop_fuel (h : OnUpdateHandler) :
  forall (fuel1 fuel2 : nat) (s : bufio.Scanner) (w : World Context OnUpdateHandler),
    String.length (bufio.src s) < fuel1 ->
    String.length (bufio.src s) < fuel2 ->
    streamLoop unmarshalResponse fuel1 h s w = streamLoop unmarshalResponse fuel2 h s w.
Proof.
  induction fuel1 as [|f1 IH]; intros fuel2 s w H1 H2; [lia|].
  destruct fuel2 as [|f2]; [lia|].
  destruct (bufio.Scan s) as [more s'] eqn:HS. destruct more.
  - rewrite (streamLoop_step f1 h s s' w HS), (streamLoop_step f2 h s s' w HS).
    pose proof (Scan_shrinks s s' HS) as Hlt.
    destruct (lineAction unmarshalResponse (bufio.Text s')); try reflexivity;
      apply IH; lia.
  - cbn [streamLoop]. unfold bind, Scan, reading, ret. rewrite HS. reflexivity.
Qed.

(** The loop over lines that all pass: it reaches what follows them, having
    made one reading call per line and the callback invocations of their
    data lines, in line order; the scanner's error is untouched. *)
Lemma streamLoop_passes (h : OnUpdateHandler) :
  forall (ls : list string) (rest : string) (s : bufio.Scanner)
         (w : World Context OnUpdateHandler) (fuel : nat),
    bufio.src s = feed ls rest ->
    Forall (passes unmarshalResponse) ls ->
    String.length (bufio.src s) < fuel ->
    exists s' : bufio.Scanner,
      bufio.src s' = rest /\ bufio.srcErr s' = bufio.srcErr s /\
      bufio.err s' = bufio.err s /\
      streamLoop unmarshalResponse fuel h s w =
      streamLoop unmarshalResponse (S (String.length rest)) h s'
        (after (List.length ls) (map (pair h) (delivered unmarshalResponse ls)) w).
Proof.
  induction ls as [|l ls IH]; intros rest s w fuel Hsrc Hall Hfuel.
  - exists s. cbn [feed] in Hsrc. cbn [List.length map delivered]. rewrite after_0.
    repeat split; auto.
    apply streamLoop_fuel; rewrite Hsrc in *; lia.
  - inversion Hall as [|? ? [Hscan Hact] Hall']; subst.
    cbn [feed] in Hsrc.
    pose proof (Scan_line s l (feed ls rest) Hsrc Hscan) as HS.
    set (s1 := {| bufio.src := feed ls rest; bufio.srcErr := bufio.srcErr s;
                  bufio.err := bufio.err s; bufio.token := bufio.dropCR l |}) in HS.
    destruct fuel as [|fuel]; [lia|].
    pose proof (Scan_shrinks _ _ HS) as Hlt.
    rewrite (streamLoop_step fuel h _ _ w HS).
    change (bufio.Text s1) with (bufio.dropCR l). cbn [delivered].
    assert (forall w' : World Context OnUpdateHandler, exists s' : bufio.Scanner,
      bufio.src s' = rest /\ bufio.srcErr s' = bufio.srcErr s /\
      bufio.err s' = bufio.err s /\
      streamLoop unmarshalResponse fuel h s1 w' =
      streamLoop unmarshalResponse (S (String.length rest)) h s'
        (after (List.length ls) (map (pair h) (delivered unmarshalResponse ls)) w')) as Hgo.
    { intro w'. apply (IH rest s1 w' fuel); [reflexivity | exact Hall' | lia]. }
    destruct (lineAction unmarshalResponse (bufio.dropCR l)) eqn:Ha; try contradiction.
    + destruct (Hgo (after 1 [] w)) as (s' & E1 & E2 & E3 & E4).
      exists s'. repeat split; auto.
      rewrite E4, after_after. reflexivity.
    + destruct (Hgo (after 1 [(h, response)] w)) as (s' & E1 & E2 & E3 & E4).
      exists s'. repeat split; auto.
      rewrite E4, after_after. reflexivity.
Qed.

End Loop.

(** ** handleStreamingResponse and ChatCompletion, path by path *)

Lemma append_empty_r (s : string) : s ++ "" = s.
Proof. induction s as [|c s IH]; cbn; [reflexivity | rewrite IH; reflexivity]. Qed.

Lemma cutLine_single (l : string) :
  singleLine l = true -> bufio.cutLine l = None.
Proof.
  induction l as [|c l IH]; cbn; intro H; [reflexivity|].
  apply andb_true_iff in H. destruct H as [Hc Hl].
  apply negb_true_iff in Hc. rewrite Hc, (IH Hl). reflexivity.
Qed.

(** The last line of a body, when no newline ends it, is a token too; by
    then the scanner has seen how the body ends. *)
Lemma Scan_last (s : bufio.Scanner) (l : string) :
  bufio.src s = l -> l <> "" -> scannable l ->
  bufio.Scan s = (true, {| bufio.src := ""; bufio.srcErr := bufio.srcErr s;
                           bufio.err := bufio.srcErr s; bufio.token := bufio.dropCR l |}).
Proof.
  intros Hsrc Hne [Hl Hfit]. unfold bufio.Scan.
  rewrite Hsrc, (cutLine_single l Hl), Hfit.
  destruct l; [congruence | reflexivity].
Qed.

Section Calls.

Variable Context : Type.
Variable OnUpdateHandler : Type.
Variable unmarshalResponse : string -> result ChatCompletionResponse.
Variable unmarshalApiError : string -> result apiError.
Variable parseURL : string -> option error.

(** The stream up to the sentinel line, in a body that ends without a read
    error: every data line before it reaches the callback, and the call
    ends with no error and one [Close].  The sentinel line is ended by a
    newline, or it ends the body. *)
Lemma handleStreamingResponse_sentinel (res : http.Response) (h : OnUpdateHandler)
    (ls : list string) (done tail : string) (w : World Context OnUpdateHandler) :
  http.Body res = feed ls (done ++ tail) ->
  Forall (passes unmarshalResponse) ls ->
  scannable done ->
  bufio.dropCR done = "data: [DONE]" ->
  tail = "" \/ (exists rest, tail = LF ++ rest) ->
  http.BodyErr res = None ->
  handleStreamingResponse unmarshalResponse res (Some h) w
  = (None, closed 1 (after (S (List.length ls))
                       (map (pair h) (delivered unmarshalResponse ls)) w)).
Proof.
  intros Hbody Hall Hdone Hcr Htail0 Hclean0.
  assert ((exists rest, tail = LF ++ rest) \/ (tail = "" /\ http.BodyErr res = None))
    as Htail by (destruct Htail0 as [Ht | Ht]; [right; split; assumption | left; exact Ht]).
  unfold handleStreamingResponse, defer. unfold bind at 1. unfold bind at 1.
  destruct (streamLoop_passes Context OnUpdateHandler unmarshalResponse h ls
              (done ++ tail)
              (bufio.NewScanner (http.Body res) (http.BodyErr res)) w
              (S (String.length (http.Body res))) Hbody Hall)
    as (s' & E1 & E2 & E3 & E4); [cbn; lia|].
  rewrite E4.
  assert (exists s2, bufio.Scan s' = (true, s2) /\ bufio.Text s2 = bufio.dropCR done
                     /\ bufio.err s2 = None)
    as (s2 & HS & HT & HE).
  { destruct Htail as [[rest ->] | [-> Hclean]].
    - eexists. split; [apply (Scan_line s' done rest E1 Hdone)|].
      split; [reflexivity | exact E3].
    - eexists. split.
      + apply (Scan_last s' done); [rewrite E1; apply append_empty_r | | exact Hdone].
        intros ->. cbn in Hcr. discriminate.
      + split; [reflexivity|]. cbn. rewrite E2. exact Hclean. }
  rewrite (streamLoop_step Context OnUpdateHandler unmarshalResponse _ h _ _ _ HS).
  rewrite HT, Hcr.
  change (lineAction unmarshalResponse "data: [DONE]") with Stop.
  unfold bufio.Err. rewrite HE.
  unfold ret, bind, Close. rewrite after_after.
  unfold closed, after. cbn. f_equal. f_equal.
  - f_equal. lia.
  - rewrite app_nil_r. reflexivity.
Qed.

(** The stream up to a data line whose payload the decoder rejects: the
    decoder's error comes back wrapped, whatever follows the line. *)
Lemma handleStreamingResponse_fail (res : http.Response) (h : OnUpdateHandler)
    (ls : list string) (bad tail : string) (e : error)
    (w : World Context OnUpdateHandler) :
  http.Body res = feed ls (bad ++ tail) ->
  Forall (passes unmarshalResponse) ls ->
  scannable bad ->
  tail = "" \/ (exists post, tail = LF ++ post) ->
  lineAction unmarshalResponse (bufio.dropCR bad) = Fail e ->
  handleStreamingResponse unmarshalResponse res (Some h) w
  = (Some e, closed 1 (after (S (List.length ls))
                         (map (pair h) (delivered unmarshalResponse ls)) w)).
Proof.
  intros Hbody Hall Hbad Htail Hact.
  unfold handleStreamingResponse, defer. unfold bind at 1. unfold bind at 1.
  destruct (streamLoop_passes Context OnUpdateHandler unmarshalResponse h ls
              (bad ++ tail)
              (bufio.NewScanner (http.Body res) (http.BodyErr res)) w
              (S (String.length (http.Body res))) Hbody Hall)
    as (s' & E1 & E2 & E3 & E4); [cbn; lia|].
  rewrite E4.
  assert (exists s2, bufio.Scan s' = (true, s2) /\ bufio.Text s2 = bufio.dropCR bad)
    as (s2 & HS & HT).
  { destruct Htail as [-> | [post ->]].
    - eexists. split.
      + apply (Scan_last s' bad); [rewrite E1; apply append_empty_r | | exact Hbad].
        intros ->. cbn in Hact. discriminate.
      + reflexivity.
    - eexists. split.
      + apply (Scan_line s' bad post E1 Hbad).
      + reflexivity. }
  rewrite (streamLoop_step Context OnUpdateHandler unmarshalResponse _ h _ _ _ HS).
  rewrite HT, Hact.
  unfold ret, bind, Close. rewrite after_after.
  unfold closed, after. cbn. f_equal. f_equal.
  - f_equal. lia.
  - rewrite app_nil_r. reflexivity.
Qed.

(** [ChatCompletion] returns before any exchange when the request cannot be
    prepared, and otherwise hands the prepared request to the transport once;
    a response is closed once when [ChatCompletion] itself returns. *)
Lemma ChatCompletion_refused (c : Client Context) (ctx : Context)
    (req : ChatCompletionRequest OnUpdateHandler) (w : World Context OnUpdateHandler)
    (err : error) :
  prepared parseURL c ctx req = inl err ->
  ChatCompletion unmarshalResponse unmarshalApiError parseURL c ctx req w
  = ((None, Some err), w).
Proof.
  unfold prepared, ChatCompletion. intro H.
  destruct (validate req); [inversion H; reflexivity|].
  destruct (Marshal req); [inversion H; reflexivity|].
  destruct (NewRequestWithContext parseURL ctx http.MethodPost
              (baseURL c ++ "/chat/completions") v); [inversion H; reflexivity|].
  discriminate.
Qed.

Lemma ChatCompletion_transport_error (c : Client Context) (ctx : Context)
    (req : ChatCompletionRequest OnUpdateHandler) (w : World Context OnUpdateHandler)
    (httpReq : http.Request Context) (err : error) :
  prepared parseURL c ctx req = inr httpReq ->
  client c httpReq = inl err ->
  ChatCompletion unmarshalResponse unmarshalApiError parseURL c ctx req w
  = ((None, Some err), sent httpReq w).
Proof.
  unfold prepared, ChatCompletion. intros H Hc.
  destruct (validate req); [discriminate|].
  destruct (Marshal req); [discriminate|].
  destruct (NewRequestWithContext parseURL ctx http.MethodPost
              (baseURL c ++ "/chat/completions") v); [discriminate|].
  cbv zeta. injection H as <-. unfold bind, Do. cbn [append] in Hc |- *. rewrite Hc. reflexivity.
Qed.

Lemma ChatCompletion_exchange (c : Client Context) (ctx : Context)
    (req : ChatCompletionRequest OnUpdateHandler) (w : World Context OnUpdateHandler)
    (httpReq : http.Request Context) (res : http.Response) :
  prepared parseURL c ctx req = inr httpReq ->
  client c httpReq = inr res ->
  ChatCompletion unmarshalResponse unmarshalApiError parseURL c ctx req w
  = (fst (receive unmarshalResponse unmarshalApiError res req (sent httpReq w)),
     closed 1 (snd (receive unmarshalResponse unmarshalApiError res req (sent httpReq w)))).
Proof.
  unfold prepared, ChatCompletion. intros H Hc.
  destruct (validate req); [discriminate|].
  destruct (Marshal req); [discriminate|].
  destruct (NewRequestWithContext parseURL ctx http.MethodPost
              (baseURL c ++ "/chat/completions") v); [discriminate|].
  cbv zeta. injection H as <-. unfold bind at 1. unfold Do. cbn [append] in Hc |- *. rewrite Hc.
  unfold defer, bind, Close, ret, sent.
  match goal with |- context [receive _ _ _ _ ?w0] =>
    destruct (receive unmarshalResponse unmarshalApiError res req w0) as [out w'] end.
  reflexivity.
Qed.

(** [receive] on a failure status. *)
Lemma receive_status (res : http.Response) (req : ChatCompletionRequest OnUpdateHandler)
    (w : World Context OnUpdateHandler) :
  http.StatusCode res <> http.StatusOK ->
  receive unmarshalResponse unmarshalApiError res req w
  = ((None,
      Some (match unmarshalApiError (http.Body res) with
            | inr e =>
                if String.eqb (api_Error e) ""
                then fmt.Errorf_s "unexpected status code: " (http.Status res)
                else fmt.Errorf_s "API error: " (api_Error e)
            | inl _ => fmt.Errorf_s "unexpected status code: " (http.Status res)
            end)),
     after 1 [] w).
Proof.
  intro Hst. unfold receive.
  apply Z.eqb_neq in Hst. rewrite Hst. cbn [negb].
  unfold ReadAll, bind, reading, ret.
  assert (forall x y, x = y -> (x, {| exchanges := exchanges w; bodyReads := S (bodyReads w);
            bodyCloses := bodyCloses w; updates := updates w |})
          = (y : option ChatCompletionResponse * option error, after 1 [] w)) as Hw.
  { intros x y ->. unfold after. cbn. rewrite app_nil_r. reflexivity. }
  destruct (unmarshalApiError (http.Body res)) as [e|e].
  - apply Hw. reflexivity.
  - destruct (String.eqb (api_Error e) ""); apply Hw; reflexivity.
Qed.

(** [receive] on status 200 with a content type that is no event stream. *)
Lemma receive_document (res : http.Response) (req : ChatCompletionRequest OnUpdateHandler)
    (w : World Context OnUpdateHandler) :
  http.StatusCode res = http.StatusOK ->
  isEventStream (http.Get (http.RespHeader res) "Content-Type") = false ->
  receive unmarshalResponse unmarshalApiError res req w
  = (match http.BodyErr res with
     | Some err => (None, Some err)
     | None =>
         match unmarshalResponse (http.Body res) with
         | inl err => (None, Some err)
         | inr response => (Some response, None)
         end
     end,
     after 1 [] w).
Proof.
  intros Hst Hct. unfold receive.
  rewrite Hst, Z.eqb_refl, Hct. cbn [negb].
  unfold ReadAll, bind, reading, ret.
  assert (forall x y, x = y -> (x, {| exchanges := exchanges w; bodyReads := S (bodyReads w);
            bodyCloses := bodyCloses w; updates := updates w |})
          = (y : option ChatCompletionResponse * option error, after 1 [] w)) as Hw.
  { intros x y ->. unfold after. cbn. rewrite app_nil_r. reflexivity. }
  destruct (http.BodyErr res); [apply Hw; reflexivity|].
  destruct (unmarshalResponse (http.Body res)); apply Hw; reflexivity.
Qed.

(** [receive] on status 200 with an event stream. *)
Lemma receive_stream (res : http.Response) (req : ChatCompletionRequest OnUpdateHandler)
    (w : World Context OnUpdateHandler) :
  http.StatusCode res = http.StatusOK ->
  isEventStream (http.Get (http.RespHeader res) "Content-Type") = true ->
  receive unmarshalResponse unmarshalApiError res req w
  = match req_Stream req with
    | None =>
        ((None, Some (errors.New "streaming response received but no stream handler provided")),
         w)
    | Some h =>
        ((None, fst (handleStreamingResponse unmarshalResponse res (Some h) w)),
         snd (handleStreamingResponse unmarshalResponse res (Some h) w))
    end.
Proof.
  intros Hst Hct. unfold receive.
  rewrite Hst, Z.eqb_refl, Hct. cbn [negb].
  destruct (req_Stream req) as [h|]; [|reflexivity].
  unfold bind, ret.
  destruct (handleStreamingResponse unmarshalResponse res (Some h) w). reflexivity.
Qed.

(** *** The request checks *)

Lemma validate_violation (req : ChatCompletionRequest OnUpdateHandler) :
  violatesRule req ->
  exists err, In err validationErrors /\ validate req = Some err.
Proof.
  intro Hv. unfold validate, validationErrors.
  destruct (String.eqb (req_Model req) "") eqn:H1.
  { eexists; split; [|reflexivity]. cbn; auto. }
  destruct (len (req_Messages req) =? 0)%nat eqn:H2.
  { eexists; split; [|reflexivity]. cbn; auto. }
  destruct (negb (String.eqb
              (msg_Role (nth (len (req_Messages req) - 1) (elems (req_Messages req)) zeroMessage))
              MessageRoleUser)) eqn:H3.
  { eexists; split; [|reflexivity]. cbn; auto. }
  destruct (negb (PrimFloat.eqb (req_PresencePenalty req) PrimFloat.zero) &&
            negb (PrimFloat.eqb (req_FrequencyPenalty req) PrimFloat.zero)) eqn:H4.
  { eexists; split; [|reflexivity]. cbn; auto 6. }
  exfalso.
  destruct Hv as [Hv | [Hv | [(earlier & last & He & Hr) | [Hp Hf]]]].
  - rewrite Hv in H1. discriminate.
  - rewrite Hv in H2. discriminate.
  - unfold len in H3. rewrite He in H3.
    rewrite length_app in H3. cbn [List.length] in H3.
    replace (List.length earlier + 1 - 1) with (List.length earlier) in H3 by lia.
    rewrite nth_middle in H3.
    apply negb_false_iff, String.eqb_eq in H3. contradiction.
  - unfold nonZero in Hp, Hf. rewrite Hp, Hf in H4. discriminate.
Qed.

(** C3. A request that breaks a validation rule (empty model, no message,
    a last message whose role is not "user", or both penalties non-zero)
    makes [ChatCompletion] return one of the four validation errors with a
    nil response, and leaves the world as it was: no request reached the
    transport.  The request is a value of the call (Go passes the struct by
    value); nothing of it is written. *)
Theorem validation_error_before_exchange (c : Client Context) (ctx : Context)
    (req : ChatCompletionRequest OnUpdateHandler) (w : World Context OnUpdateHandler) :
  violatesRule req ->
  exists err : error,
    In err validationErrors /\
    ChatCompletion unmarshalResponse unmarshalApiError parseURL c ctx req w
    = ((None, Some err), w).
Proof.
  intro Hv. destruct (validate_violation req Hv) as (err & Hin & Hval).
  exists err. split; [exact Hin|].
  apply ChatCompletion_refused. unfold prepared. rewrite Hval. reflexivity.
Qed.

(** *** The missing handler *)


(** *** Failure statuses *)

Lemma prefix_refl (s : string) : String.prefix s s = true.
Proof.
  induction s as [|c s IH]; cbn; [reflexivity|].
  destruct (ascii_dec c c); [exact IH | congruence].
Qed.

Lemma prefix_nil (s : string) : String.prefix "" s = true.
Proof. destruct s; reflexivity. Qed.

Lemma Contains_append (a b : string) : strings.Contains (a ++ b) b = true.
Proof.
  induction a as [|c a IH]; cbn [append].
  - destruct b as [|x b]; cbn; [reflexivity|].
    destruct (ascii_dec x x); [|congruence]. rewrite prefix_refl. reflexivity.
  - cbn [strings.Contains]. rewrite IH. apply orb_true_r.
Qed.

(** C6. A response whose status is not 200: when its body decodes to an
    [apiError] with a non-empty message, the error of [ChatCompletion] is
    "API error: " followed by that message, so it contains the message;
    otherwise (the body does not decode, or the message is empty) it is
    "unexpected status code: " followed by the status line. *)
Theorem api_error_or_status (c : Client Context) (ctx : Context)
    (req : ChatCompletionRequest OnUpdateHandler) (w : World Context OnUpdateHandler)
    (httpReq : http.Request Context) (res : http.Response) :
  prepared parseURL c ctx req = inr httpReq ->
  client c httpReq = inr res ->
  http.StatusCode res <> http.StatusOK ->
  exists err : error,
    fst (ChatCompletion unmarshalResponse unmarshalApiError parseURL c ctx req w)
    = (None, Some err) /\
    (forall e, unmarshalApiError (http.Body res) = inr e -> api_Error e <> "" ->
       err = fmt.Errorf_s "API error: " (api_Error e) /\
       strings.Contains (Error err) (api_Error e) = true) /\
    ((forall e, unmarshalApiError (http.Body res) = inr e -> api_Error e = "") ->
       err = fmt.Errorf_s "unexpected status code: " (http.Status res)).
Proof.
  intros Hp Hc Hst.
  rewrite (ChatCompletion_exchange c ctx req w httpReq res Hp Hc).
  rewrite (receive_status res req _ Hst). cbn [fst snd].
  eexists. split; [reflexivity|]. split.
  - intros e He Hne. rewrite He.
    apply String.eqb_neq in Hne. rewrite Hne. split; [reflexivity|].
    cbn [fmt.Errorf_s Error]. apply Contains_append.
  - intro Hno. destruct (unmarshalApiError (http.Body res)) as [e|e]; [reflexivity|].
    rewrite (Hno e eq_refl). reflexivity.
Qed.

(** C9. Any status other than 200, be it 201 or 204, is a failure: the
    response is nil, the error is not, the body has been read once with
    [io.ReadAll] and closed once, and the callback has not been called (no
    document was decoded and the reading loop was not entered). *)
Theorem status_other_than_200_fails (c : Client Context) (ctx : Context)
    (req : ChatCompletionRequest OnUpdateHandler) (w : World Context OnUpdateHandler)
    (httpReq : http.Request Context) (res : http.Response) :
  prepared parseURL c ctx req = inr httpReq ->
  client c httpReq = inr res ->
  http.StatusCode res <> http.StatusOK ->
  exists err : error,
    ChatCompletion unmarshalResponse unmarshalApiError parseURL c ctx req w
    = ((None, Some err),
       {| exchanges := exchanges w ++ [httpReq];
          bodyReads := S (bodyReads w);
          bodyCloses := S (bodyCloses w);
          updates := updates w |}).
Proof.
  intros Hp Hc Hst.
  rewrite (ChatCompletion_exchange c ctx req w httpReq res Hp Hc).
  rewrite (receive_status res req _ Hst). cbn [fst snd].
  eexists. f_equal. unfold closed, after, sent. cbn. rewrite app_nil_r. reflexivity.
Qed.

(** *** Documents *)

(** C10. A response whose content type is no event stream: the callback is
    not called, whatever the status and whether or not the request has one;
    a response comes back only as the return value, and then it is the
    decoded body of a status 200 response (and every such body that reads
    and decodes is returned). *)
Theorem document_never_calls_back (c : Client Context) (ctx : Context)
    (req : ChatCompletionRequest OnUpdateHandler) (w : World Context OnUpdateHandler)
    (httpReq : http.Request Context) (res : http.Response) :
  prepared parseURL c ctx req = inr httpReq ->
  client c httpReq = inr res ->
  isEventStream (http.Get (http.RespHeader res) "Content-Type") = false ->
  updates (snd (ChatCompletion unmarshalResponse unmarshalApiError parseURL c ctx req w))
  = updates w /\
  (forall response,
     fst (fst (ChatCompletion unmarshalResponse unmarshalApiError parseURL c ctx req w))
     = Some response <->
     http.StatusCode res = http.StatusOK /\ http.BodyErr res = None /\
     unmarshalResponse (http.Body res) = inr response).
Proof.
  intros Hp Hc Hct.
  rewrite (ChatCompletion_exchange c ctx req w httpReq res Hp Hc). cbn [fst snd].
  destruct (Z.eq_dec (http.StatusCode res) http.StatusOK) as [Hst|Hst].
  - rewrite (receive_document res req _ Hst Hct). cbn [fst snd]. split.
    + cbn. apply app_nil_r.
    + intro response. destruct (http.BodyErr res) as [e|].
      * cbn. split; [discriminate | intros (_ & H & _); discriminate].
      * destruct (unmarshalResponse (http.Body res)) as [e|r]; cbn.
        -- split; [discriminate | intros (_ & _ & H); discriminate].
        -- split; [intro H; inversion H; auto | intros (_ & _ & H); inversion H; auto].
  - rewrite (receive_status res req _ Hst). cbn [fst snd]. split.
    + cbn. apply app_nil_r.
    + intro response. split; [discriminate | intros (H & _); contradiction].
Qed.

(** *** Closing the body *)

(** The reading loop closes nothing and sends nothing. *)
Lemma streamLoop_closes (h : OnUpdateHandler) :
  forall (fuel : nat) (s : bufio.Scanner) (w : World Context OnUpdateHandler),
    bodyCloses (snd (streamLoop unmarshalResponse fuel h s w)) = bodyCloses w /\
    exchanges (snd (streamLoop unmarshalResponse fuel h s w)) = exchanges w.
Proof.
  induction fuel as [|fuel IH]; intros s w; [split; reflexivity|].
  destruct (bufio.Scan s) as [more s'] eqn:HS. destruct more.
  - rewrite (streamLoop_step Context OnUpdateHandler unmarshalResponse fuel h s s' w HS).
    destruct (lineAction unmarshalResponse (bufio.Text s')).
    + destruct (IH s' (after 1 [] w)) as [-> ->]. split; reflexivity.
    + split; reflexivity.
    + split; reflexivity.
    + destruct (IH s' (after 1 [(h, response)] w)) as [-> ->]. split; reflexivity.
  - cbn [streamLoop]. unfold bind, Scan, reading, ret. rewrite HS. split; reflexivity.
Qed.

(** [handleStreamingResponse] closes the body once, in every case. *)
Lemma handleStreamingResponse_closes (res : http.Response) (onUpdate : option OnUpdateHandler)
    (w : World Context OnUpdateHandler) :
  bodyCloses (snd (handleStreamingResponse unmarshalResponse res onUpdate w))
  = S (bodyCloses w).
Proof.
  unfold handleStreamingResponse, defer. unfold bind at 1.
  destruct onUpdate as [h|]; [|reflexivity].
  unfold bind.
  pose proof (streamLoop_closes h (S (String.length (http.Body res)))
                (bufio.NewScanner (http.Body res) (http.BodyErr res)) w) as [Hc _].
  destruct (streamLoop unmarshalResponse (S (String.length (http.Body res))) h
              (bufio.NewScanner (http.Body res) (http.BodyErr res)) w) as [out w'].
  cbn [snd] in Hc.
  destruct out as [sc|e]; [destruct (bufio.Err sc)|];
    unfold ret, bind, Close; cbn; rewrite Hc; reflexivity.
Qed.

(** On the paths that do not enter [handleStreamingResponse] (a failure
    status, a document, a stream without handler) the body is closed once. *)
Lemma closes_once (c : Client Context) (ctx : Context)
    (req : ChatCompletionRequest OnUpdateHandler) (w : World Context OnUpdateHandler)
    (httpReq : http.Request Context) (res : http.Response) :
  prepared parseURL c ctx req = inr httpReq ->
  client c httpReq = inr res ->
  http.StatusCode res <> http.StatusOK
  \/ isEventStream (http.Get (http.RespHeader res) "Content-Type") = false
  \/ req_Stream req = None ->
  bodyCloses (snd (ChatCompletion unmarshalResponse unmarshalApiError parseURL c ctx req w))
  = S (bodyCloses w).
Proof.
  intros Hp Hc Hcase.
  rewrite (ChatCompletion_exchange c ctx req w httpReq res Hp Hc). cbn [snd].
  destruct (Z.eq_dec (http.StatusCode res) http.StatusOK) as [Hst|Hst];
    [|rewrite (receive_status res req _ Hst); reflexivity].
  destruct (isEventStream (http.Get (http.RespHeader res) "Content-Type")) eqn:Hct;
    [|rewrite (receive_document res req _ Hst Hct); reflexivity].
  rewrite (receive_stream res req _ Hst Hct).
  destruct Hcase as [H | [H | H]]; [contradiction | discriminate |].
  rewrite H. reflexivity.
Qed.

(** C2, as the code has it.  On every streaming path with a handler (clean
    end, decode error, read error: any body at all) [res.Body.Close()] runs
    twice: the deferred call of [handleStreamingResponse] and then the
    deferred call of [ChatCompletion] itself. *)
Theorem streaming_closes_twice (c : Client Context) (ctx : Context)
    (req : ChatCompletionRequest OnUpdateHandler) (w : World Context OnUpdateHandler)
    (httpReq : http.Request Context) (res : http.Response) (h : OnUpdateHandler) :
  prepared parseURL c ctx req = inr httpReq ->
  client c httpReq = inr res ->
  http.StatusCode res = http.StatusOK ->
  isEventStream (http.Get (http.RespHeader res) "Content-Type") = true ->
  req_Stream req = Some h ->
  bodyCloses (snd (ChatCompletion unmarshalResponse unmarshalApiError parseURL c ctx req w))
  = 2 + bodyCloses w.
Proof.
  intros Hp Hc Hst Hct Hh.
  rewrite (ChatCompletion_exchange c ctx req w httpReq res Hp Hc). cbn [snd].
  rewrite (receive_stream res req _ Hst Hct), Hh. cbn [snd closed bodyCloses].
  rewrite handleStreamingResponse_closes. reflexivity.
Qed.

(** *** Lines the loop passes over *)

Lemma lineAction_ignorable (line : string) :
  ignorable line = true -> lineAction unmarshalResponse line = Skip.
Proof.
  unfold ignorable, lineAction. intro H.
  destruct (String.eqb line ""); [reflexivity|].
  cbn [orb] in H. apply andb_true_iff in H. destruct H as [Hd Hp].
  apply negb_true_iff in Hd, Hp. rewrite Hd, prefix_slice, Hp. reflexivity.
Qed.

(** C8. In the reading loop, a line that is empty, or that is neither the
    sentinel nor prefixed with "data: ", is passed over: the round ends with
    the loop going on to the next [Scan], the callback has not been called
    and nothing is returned; the round's only trace is its reading call. *)
Theorem ignored_line_continues (fuel : nat) (h : OnUpdateHandler)
    (s s' : bufio.Scanner) (w : World Context OnUpdateHandler) :
  bufio.Scan s = (true, s') ->
  ignorable (bufio.Text s') = true ->
  streamLoop unmarshalResponse (S fuel) h s w
  = streamLoop unmarshalResponse fuel h s'
      {| exchanges := exchanges w; bodyReads := S (bodyReads w);
         bodyCloses := bodyCloses w; updates := updates w |}.
Proof.
  intros HS Hi.
  rewrite (streamLoop_step Context OnUpdateHandler unmarshalResponse fuel h s s' w HS).
  rewrite (lineAction_ignorable _ Hi).
  f_equal. unfold after. cbn. rewrite app_nil_r. reflexivity.
Qed.

(** *** The stream flag on the wire *)




(** *** Data lines *)

Lemma substring_full (q : string) : substring 0 (String.length q) q = q.
Proof. induction q as [|c q IH]; cbn; [reflexivity | rewrite IH; reflexivity]. Qed.

Lemma dropCR_dataLine (p : string) :
  bufio.dropCR (dataLine p) = dataLine (bufio.dropCR p).
Proof. destruct p as [|c p]; reflexivity. Qed.

(** The round of the loop on a data line: the payload goes to the decoder. *)
Lemma lineAction_dataLine (q : string) :
  q <> "[DONE]" ->
  lineAction unmarshalResponse (dataLine q)
  = match unmarshalResponse q with
    | inl err => Fail (fmt.Errorf_w "failed to unmarshal streaming event: " err)
    | inr response => Deliver response
    end.
Proof.
  intro Hq. unfold lineAction. rewrite prefix_slice.
  assert (String.eqb (dataLine q) "" = false) as -> by reflexivity.
  assert (String.eqb (dataLine q) "data: [DONE]" = String.eqb q "[DONE]") as ->
    by reflexivity.
  apply String.eqb_neq in Hq. rewrite Hq.
  assert (strings.HasPrefix (dataLine q) "data: " = true) as ->
    by (unfold strings.HasPrefix, dataLine; cbn; apply prefix_nil).
  assert (slice_from (dataLine q) 6 = q) as ->
    by (unfold slice_from, dataLine; cbn; rewrite Nat.sub_0_r; apply substring_full).
  reflexivity.
Qed.

Lemma validEvent_delivers (p : string) (r : ChatCompletionResponse) :
  validEvent unmarshalResponse p r ->
  scannable (dataLine p) /\
  lineAction unmarshalResponse (bufio.dropCR (dataLine p)) = Deliver r.
Proof.
  intros (Hs & Hne & Hu). split; [exact Hs|].
  rewrite dropCR_dataLine, (lineAction_dataLine _ Hne), Hu. reflexivity.
Qed.

Lemma malformedEvent_fails (p : string) (e : error) :
  malformedEvent unmarshalResponse p e ->
  scannable (dataLine p) /\
  lineAction unmarshalResponse (bufio.dropCR (dataLine p))
  = Fail (fmt.Errorf_w "failed to unmarshal streaming event: " e).
Proof.
  intros (Hs & Hne & Hu). split; [exact Hs|].
  rewrite dropCR_dataLine, (lineAction_dataLine _ Hne), Hu. reflexivity.
Qed.

Lemma validEvents_delivered (payloads : list string) (responses : list ChatCompletionResponse) :
  Forall2 (validEvent unmarshalResponse) payloads responses ->
  Forall (passes unmarshalResponse) (map dataLine payloads) /\
  delivered unmarshalResponse (map dataLine payloads) = responses.
Proof.
  induction 1 as [|p r ps rs Hv _ [IHp IHd]]; cbn [map delivered].
  - split; [constructor | reflexivity].
  - destruct (validEvent_delivers p r Hv) as [Hs Ha]. split.
    + constructor; [|exact IHp]. split; [exact Hs|]. rewrite Ha. exact I.
    + rewrite Ha, IHd. reflexivity.
Qed.

Lemma sentinelLine_scans (l : string) :
  sentinelLine l -> scannable l /\ bufio.dropCR l = "data: [DONE]".
Proof. intros [-> | ->]; repeat split; reflexivity. Qed.

(** The data lines among lines that all pass are exactly those whose events
    are delivered. *)
Lemma delivered_count (ls : list string) :
  Forall (passes unmarshalResponse) ls ->
  List.length (delivered unmarshalResponse ls)
  = List.length (filter (fun l => isDataLine (bufio.dropCR l)) ls).
Proof.
  induction 1 as [|l ls [_ Hact] _ IH]; [reflexivity|].
  cbn [delivered filter]. unfold isDataLine at 1.
  unfold lineAction in Hact |- *. rewrite prefix_slice in Hact |- *.
  destruct (String.eqb (bufio.dropCR l) "") eqn:E0.
  { apply String.eqb_eq in E0. rewrite E0. cbn. exact IH. }
  destruct (String.eqb (bufio.dropCR l) "data: [DONE]"); [contradiction|].
  destruct (strings.HasPrefix (bufio.dropCR l) "data: "); cbn [andb negb].
  - destruct (unmarshalResponse (slice_from (bufio.dropCR l) 6)); [contradiction|].
    cbn [List.length]. rewrite IH. reflexivity.
  - exact IH.
Qed.

(** *** Streams *)

(** C1, amended.  A streaming response (status 200, event stream, to a
    request with callback [h]) whose body is N data lines with valid events
    and then the sentinel line, every line shorter than
    [bufio.MaxScanTokenSize] bytes, and which ends without a read error:
    [ChatCompletion] calls [h] N times, once per data line with its event
    and in line order, and returns a nil response and a nil error.  Lines
    end in a newline, with or without a carriage return before it (the
    sentinel line may also end the body); what follows the sentinel line is
    not looked at. *)
Theorem stream_delivers_every_event (c : Client Context) (ctx : Context)
    (req : ChatCompletionRequest OnUpdateHandler) (w : World Context OnUpdateHandler)
    (httpReq : http.Request Context) (res : http.Response) (h : OnUpdateHandler)
    (payloads : list string) (responses : list ChatCompletionResponse)
    (done tail : string) :
  prepared parseURL c ctx req = inr httpReq ->
  client c httpReq = inr res ->
  http.StatusCode res = http.StatusOK ->
  isEventStream (http.Get (http.RespHeader res) "Content-Type") = true ->
  req_Stream req = Some h ->
  Forall2 (validEvent unmarshalResponse) payloads responses ->
  sentinelLine done ->
  tail = "" \/ (exists rest, tail = LF ++ rest) ->
  http.Body res = feed (map dataLine payloads) (done ++ tail) ->
  http.BodyErr res = None ->
  fst (ChatCompletion unmarshalResponse unmarshalApiError parseURL c ctx req w)
  = (None, None) /\
  updates (snd (ChatCompletion unmarshalResponse unmarshalApiError parseURL c ctx req w))
  = (updates w ++ map (pair h) responses)%list /\
  List.length responses = List.length payloads.
Proof.
  intros Hp Hc Hst Hct Hh Hvalid Hdone Htail Hbody Hclean.
  destruct (validEvents_delivered payloads responses Hvalid) as [Hpass Hdel].
  destruct (sentinelLine_scans done Hdone) as [Hscan Hcr].
  rewrite (ChatCompletion_exchange c ctx req w httpReq res Hp Hc). cbn [fst snd].
  rewrite (receive_stream res req _ Hst Hct), Hh.
  rewrite (handleStreamingResponse_sentinel res h (map dataLine payloads) done tail _
             Hbody Hpass Hscan Hcr Htail Hclean).
  rewrite Hdel. cbn [fst snd]. repeat split.
  apply eq_sym, (Forall2_length Hvalid).
Qed.

(** C4, amended.  A streaming response to a request with callback [h]
    whose K-th data line carries a payload the decoder rejects, where the
    lines before it all pass (ignored lines and data lines with valid
    events, none of them the sentinel line) and every line up to it is
    shorter than [bufio.MaxScanTokenSize] bytes: [h] has been called K-1
    times, with the events of the earlier data lines in order; the error is
    the decoder's, wrapped as "failed to unmarshal streaming event: ...",
    which no wrapped read error "error reading streaming response: ..." is;
    and the outcome is the same whatever follows the line. *)
Theorem decode_failure_stops_stream (c : Client Context) (ctx : Context)
    (req : ChatCompletionRequest OnUpdateHandler) (w : World Context OnUpdateHandler)
    (httpReq : http.Request Context) (res : http.Response) (h : OnUpdateHandler)
    (pre : list string) (bad tail : string) (e : error) (K : nat) :
  prepared parseURL c ctx req = inr httpReq ->
  client c httpReq = inr res ->
  http.StatusCode res = http.StatusOK ->
  isEventStream (http.Get (http.RespHeader res) "Content-Type") = true ->
  req_Stream req = Some h ->
  Forall (passes unmarshalResponse) pre ->
  S (List.length (filter (fun l => isDataLine (bufio.dropCR l)) pre)) = K ->
  malformedEvent unmarshalResponse bad e ->
  tail = "" \/ (exists post, tail = LF ++ post) ->
  http.Body res = feed pre (dataLine bad ++ tail) ->
  fst (ChatCompletion unmarshalResponse unmarshalApiError parseURL c ctx req w)
  = (None, Some (fmt.Errorf_w "failed to unmarshal streaming event: " e)) /\
  updates (snd (ChatCompletion unmarshalResponse unmarshalApiError parseURL c ctx req w))
  = (updates w ++ map (pair h) (delivered unmarshalResponse pre))%list /\
  List.length (delivered unmarshalResponse pre) = K - 1 /\
  (forall e' : error,
     fmt.Errorf_w "failed to unmarshal streaming event: " e
     <> fmt.Errorf_w "error reading streaming response: " e').
Proof.
  intros Hp Hc Hst Hct Hh Hpass HK Hbad Htail Hbody.
  destruct (malformedEvent_fails bad e Hbad) as [Hscan Hact].
  rewrite (ChatCompletion_exchange c ctx req w httpReq res Hp Hc). cbn [fst snd].
  rewrite (receive_stream res req _ Hst Hct), Hh.
  rewrite (handleStreamingResponse_fail res h pre (dataLine bad) tail _ _
             Hbody Hpass Hscan Htail Hact).
  cbn [fst snd]. repeat split.
  - rewrite (delivered_count pre Hpass). lia.
  - intros e' H. unfold fmt.Errorf_w in H. cbn in H. discriminate.
Qed.

End Calls.

(** * The properties at concrete inputs *)

Ltac computed := vm_compute; first [reflexivity | discriminate | exact I].

Ltac differs := let H := fresh in intro H; vm_compute in H; discriminate.

Ltac valid_event := split; [split; computed | split; [differs | computed]].

(** C3 at a request with an empty model, and nothing sent. *)
Lemma validation_error_before_exchange_witness :
  exists err : error,
    In err validationErrors /\
    ChatCompletion sample.unmarshalResponse sample.unmarshalApiError sample.parseURL
      (sample.clientAnswering (sample.response 200 "200 OK" "application/json" "{}"))
      sample.Background
      (withStream None
         {| req_Model := ""; req_Messages := None; req_MaxTokens := 0;
            req_Temperature := PrimFloat.zero; req_TopP := PrimFloat.zero;
            req_ReturnCitations := false; req_SearchDomainFilter := None;
            req_ReturnImages := false; req_ReturnRelatedQuestions := false;
            req_SearchRecencyFilter := ""; req_TopK := 0; req_Stream := Some "print";
            req_PresencePenalty := PrimFloat.zero; req_FrequencyPenalty := PrimFloat.zero |})
      sample.w0
    = ((None, Some err), sample.w0).
Proof.
  apply (validation_error_before_exchange sample.Ctx sample.Handler
           sample.unmarshalResponse sample.unmarshalApiError sample.parseURL).
  left. reflexivity.
Defined.


(** C6 at status 400 with the body [{"error":"bad request"}]. *)
Lemma api_error_or_status_witness :
  exists err : error,
    fst (ChatCompletion sample.unmarshalResponse sample.unmarshalApiError sample.parseURL
           (sample.clientAnswering
              (sample.response 400 "400 Bad Request" "application/json"
                 (sample.errorBody "bad request")))
           sample.Background (sample.request None) sample.w0)
    = (None, Some err) /\
    strings.Contains (Error err) "bad request" = true.
Proof.
  destruct (api_error_or_status sample.Ctx sample.Handler
              sample.unmarshalResponse sample.unmarshalApiError sample.parseURL
              (sample.clientAnswering
                 (sample.response 400 "400 Bad Request" "application/json"
                    (sample.errorBody "bad request")))
              sample.Background (sample.request None) sample.w0 _ _ eq_refl eq_refl)
    as (err & Hret & Hapi & _).
  { vm_compute. discriminate. }
  exists err. split; [exact Hret|].
  apply (Hapi {| api_Error := "bad request" |}); [computed | discriminate].
Defined.

(** C9 at status 201. *)
Lemma status_other_than_200_fails_witness :
  exists err : error,
    fst (ChatCompletion sample.unmarshalResponse sample.unmarshalApiError sample.parseURL
           (sample.clientAnswering (sample.response 201 "201 Created" "application/json" "{}"))
           sample.Background (sample.request (Some "print")) sample.w0)
    = (None, Some err).
Proof.
  destruct (status_other_than_200_fails sample.Ctx sample.Handler
              sample.unmarshalResponse sample.unmarshalApiError sample.parseURL
              (sample.clientAnswering
                 (sample.response 201 "201 Created" "application/json" "{}"))
              sample.Background (sample.request (Some "print")) sample.w0 _ _ eq_refl eq_refl)
    as (err & Hret).
  { vm_compute. discriminate. }
  exists err. rewrite Hret. reflexivity.
Defined.

(** C10 at a JSON document answered to a request with a callback. *)
Lemma document_never_calls_back_witness :
  updates
    (snd (ChatCompletion sample.unmarshalResponse sample.unmarshalApiError sample.parseURL
            (sample.clientAnswering
               (sample.response 200 "200 OK" "application/json" (sample.event "a")))
            sample.Background (sample.request (Some "print")) sample.w0))
  = [].
Proof.
  apply (document_never_calls_back sample.Ctx sample.Handler
           sample.unmarshalResponse sample.unmarshalApiError sample.parseURL
           (sample.clientAnswering
              (sample.response 200 "200 OK" "application/json" (sample.event "a")))
           sample.Background (sample.request (Some "print")) sample.w0 _ _
           eq_refl eq_refl eq_refl).
Defined.

(** C2 at the stream that is just the sentinel line: two calls of [Close]. *)
Lemma streaming_closes_twice_witness :
  bodyCloses
    (snd (ChatCompletion sample.unmarshalResponse sample.unmarshalApiError sample.parseURL
            (sample.clientAnswering
               (sample.response 200 "200 OK" "text/event-stream" (feed ["data: [DONE]"] "")))
            sample.Background (sample.request (Some "print")) sample.w0))
  = 2.
Proof.
  apply (streaming_closes_twice sample.Ctx sample.Handler
           sample.unmarshalResponse sample.unmarshalApiError sample.parseURL
           (sample.clientAnswering
              (sample.response 200 "200 OK" "text/event-stream" (feed ["data: [DONE]"] "")))
           sample.Background (sample.request (Some "print")) sample.w0 _ _ "print"
           eq_refl eq_refl eq_refl eq_refl eq_refl).
Defined.

(** C8 at a comment line of the event stream format. *)
Lemma ignored_line_continues_witness :
  streamLoop sample.unmarshalResponse 20 "print"
    (bufio.NewScanner (feed [": keep-alive"; "data: [DONE]"] "") None) sample.w0
  = streamLoop sample.unmarshalResponse 19 "print"
      {| bufio.src := feed ["data: [DONE]"] ""; bufio.srcErr := None;
         bufio.err := None; bufio.token := ": keep-alive" |}
      {| exchanges := []; bodyReads := 1; bodyCloses := 0; updates := [] |}.
Proof.
  apply (ignored_line_continues sample.Ctx sample.Handler sample.unmarshalResponse
           19 "print" _ _ sample.w0); reflexivity.
Defined.


(** C1 at a stream of two events and the sentinel, the second line ended
    by a carriage return and a newline. *)
Lemma stream_delivers_every_event_witness :
  let out :=
    ChatCompletion sample.unmarshalResponse sample.unmarshalApiError sample.parseURL
      (sample.clientAnswering
         (sample.response 200 "200 OK" "text/event-stream"
            (feed [dataLine (sample.event "a"); dataLine (sample.event "b" ++ CR);
                   "data: [DONE]"] "")))
      sample.Background (sample.request (Some "print")) sample.w0 in
  fst out = (None, None) /\
  updates (snd out) = [("print", sample.withID "a"); ("print", sample.withID "b")] /\
  2 = 2.
Proof.
  apply (stream_delivers_every_event sample.Ctx sample.Handler
           sample.unmarshalResponse sample.unmarshalApiError sample.parseURL
           (sample.clientAnswering
              (sample.response 200 "200 OK" "text/event-stream"
                 (feed [dataLine (sample.event "a"); dataLine (sample.event "b" ++ CR);
                        "data: [DONE]"] "")))
           sample.Background (sample.request (Some "print")) sample.w0 _ _ "print"
           [sample.event "a"; sample.event "b" ++ CR]
           [sample.withID "a"; sample.withID "b"]
           "data: [DONE]" (LF ++ "")
           eq_refl eq_refl eq_refl eq_refl eq_refl).
  - constructor; [valid_event|]. constructor; [valid_event|]. constructor.
  - left. reflexivity.
  - right. exists "". reflexivity.
  - reflexivity.
  - reflexivity.
Defined.

(** C4 at a stream whose second data line is cut short; a comment line, an
    empty line and a later valid data line stand around it. *)
Lemma decode_failure_stops_stream_witness :
  let out :=
    ChatCompletion sample.unmarshalResponse sample.unmarshalApiError sample.parseURL
      (sample.clientAnswering
         (sample.response 200 "200 OK" "text/event-stream"
            (feed [": hello"; dataLine (sample.event "a"); ""]
               (dataLine "{" ++ LF ++ dataLine (sample.event "b") ++ LF))))
      sample.Background (sample.request (Some "print")) sample.w0 in
  fst out
  = (None, Some (fmt.Errorf_w "failed to unmarshal streaming event: "
                   (sample.SyntaxError "unexpected end of JSON input"))) /\
  updates (snd out) = [("print", sample.withID "a")] /\
  1 = 2 - 1 /\
  (forall e' : error,
     fmt.Errorf_w "failed to unmarshal streaming event: "
       (sample.SyntaxError "unexpected end of JSON input")
     <> fmt.Errorf_w "error reading streaming response: " e').
Proof.
  apply (decode_failure_stops_stream sample.Ctx sample.Handler
           sample.unmarshalResponse sample.unmarshalApiError sample.parseURL
           (sample.clientAnswering
              (sample.response 200 "200 OK" "text/event-stream"
                 (feed [": hello"; dataLine (sample.event "a"); ""]
                    (dataLine "{" ++ LF ++ dataLine (sample.event "b") ++ LF))))
           sample.Background (sample.request (Some "print")) sample.w0 _ _ "print"
           [": hello"; dataLine (sample.event "a"); ""] "{"
           (LF ++ dataLine (sample.event "b") ++ LF)
           (sample.SyntaxError "unexpected end of JSON input") 2
           eq_refl eq_refl eq_refl eq_refl eq_refl).
  - repeat constructor; computed.
  - reflexivity.
  - valid_event.
  - right. eexists. reflexivity.
  - reflexivity.
Defined.

(** ** Where the claims as first stated fail *)

(** C1 as stated ("for every body of N data lines with valid JSON and then
    the sentinel") fails at a data line of 65544 bytes: the payload is a JSON
    object (a brace, 65536 spaces, a brace; it decodes to the zero value),
    the sentinel line follows, and yet the callback is not called and the
    call returns the wrapped [bufio.ErrTooLong], as the line does not fit
    the scanner's buffer. *)
Lemma long_event_line_fails :
  let out :=
    ChatCompletion sample.unmarshalResponse sample.unmarshalApiError sample.parseURL
      (sample.clientAnswering
         (sample.response 200 "200 OK" "text/event-stream"
            (feed [dataLine sample.paddedObject; "data: [DONE]"] "")))
      sample.Background (sample.request (Some "print")) sample.w0 in
  sample.unmarshalResponse sample.paddedObject = inr zeroResponse /\
  singleLine sample.paddedObject = true /\
  fst out = (None, Some (fmt.Errorf_w "error reading streaming response: " bufio.ErrTooLong)) /\
  updates (snd out) = [].
Proof. vm_compute. repeat split. Qed.

(** C4 as stated fails at a stream whose sentinel line comes before the
    malformed data line: the first data line after the sentinel carries [{],
    which is no JSON, and every data line before it is valid (there is
    none); the claim has the call return a decode error, and it returns no
    error.  (Read with the sentinel itself as the first "data: "-prefixed
    line, whose payload [[DONE]] is no JSON either, the claim fails at the
    same input in the same way.) *)
Lemma sentinel_before_malformed_line :
  let out :=
    ChatCompletion sample.unmarshalResponse sample.unmarshalApiError sample.parseURL
      (sample.clientAnswering
         (sample.response 200 "200 OK" "text/event-stream"
            (feed ["data: [DONE]"; dataLine "{"] "")))
      sample.Background (sample.request (Some "print")) sample.w0 in
  sample.unmarshalResponse "{"
  = inl (sample.SyntaxError "unexpected end of JSON input") /\
  sample.unmarshalResponse "[DONE]"
  = inl (sample.SyntaxError "invalid character looking for beginning of value") /\
  fst out = (None, None) /\
  updates (snd out) = [].
Proof. vm_compute. repeat split. Qed.


(** * Further properties of the code *)

(** ** MarshalJSON, field by field *)

(** A float that compares equal to 0 is finite. *)
Lemma zero_is_finite (f : float) :
  PrimFloat.eqb f PrimFloat.zero = true -> PrimFloat.is_finite f = true.
Proof.
  unfold PrimFloat.is_finite, PrimFloat.is_nan, PrimFloat.is_infinity.
  rewrite !FloatAxioms.eqb_spec, FloatAxioms.abs_spec.
  change (Prim2SF PrimFloat.zero) with (S754_zero false).
  change (Prim2SF PrimFloat.infinity) with (S754_infinity false).
  destruct (Prim2SF f) as [s|s| |s m e]; cbn.
  - destruct s; reflexivity.
  - destruct s; discriminate.
  - discriminate.
  - destruct s; discriminate.
Qed.

Lemma field_float_finite (key : string) (f : float) :
  PrimFloat.is_finite f = true ->
  json.field_float_omitempty key f
  = inr (if PrimFloat.eqb f PrimFloat.zero then [] else [(key, json.JFloat f)]).
Proof.
  unfold PrimFloat.is_finite, json.field_float_omitempty, json.floatEncoder. intro H.
  apply negb_true_iff in H. rewrite H.
  destruct (PrimFloat.eqb f PrimFloat.zero); reflexivity.
Qed.

Lemma field_float_not_finite (key : string) (f : float) :
  PrimFloat.is_finite f = false ->
  json.field_float_omitempty key f = inl (json.UnsupportedValueError f).
Proof.
  intro H. unfold json.field_float_omitempty, json.floatEncoder.
  destruct (PrimFloat.eqb f PrimFloat.zero) eqn:E.
  - rewrite (zero_is_finite f E) in H. discriminate.
  - unfold PrimFloat.is_finite in H. apply negb_false_iff in H. rewrite H. reflexivity.
Qed.

Section Wire.

Variable OnUpdateHandler : Type.

(** The object [MarshalJSON] writes for a request whose floats are finite. *)
Lemma MarshalJSON_object (req : ChatCompletionRequest OnUpdateHandler) :
  forallb PrimFloat.is_finite (floatFields req) = true ->
  MarshalJSON req
  = inr (json.JObject
           ([("model", json.JString (req_Model req));
             ("messages", json.sliceEncoder messageEncoder (req_Messages req))]
            ++ (if (req_MaxTokens req =? 0)%Z then []
                else [("max_tokens", json.JInt (req_MaxTokens req))])
            ++ (if PrimFloat.eqb (req_Temperature req) PrimFloat.zero then []
                else [("temperature", json.JFloat (req_Temperature req))])
            ++ (if PrimFloat.eqb (req_TopP req) PrimFloat.zero then []
                else [("top_p", json.JFloat (req_TopP req))])
            ++ [("return_citations", json.JBool (req_ReturnCitations req));
                ("search_domain_filter",
                 json.sliceEncoder json.JString (req_SearchDomainFilter req));
                ("return_images", json.JBool (req_ReturnImages req));
                ("return_related_questions", json.JBool (req_ReturnRelatedQuestions req))]
            ++ (if String.eqb (req_SearchRecencyFilter req) "" then []
                else [("search_recency_filter", json.JString (req_SearchRecencyFilter req))])
            ++ (if (req_TopK req =? 0)%Z then []
                else [("top_k", json.JInt (req_TopK req))])
            ++ (if PrimFloat.eqb (req_PresencePenalty req) PrimFloat.zero then []
                else [("presence_penalty", json.JFloat (req_PresencePenalty req))])
            ++ (if PrimFloat.eqb (req_FrequencyPenalty req) PrimFloat.zero then []
                else [("frequency_penalty", json.JFloat (req_FrequencyPenalty req))])
            ++ (match req_Stream req with
                | Some _ => [("stream", json.JBool true)]
                | None => []
                end))%list).
Proof.
  unfold floatFields. cbn [forallb]. intro H.
  apply andb_true_iff in H. destruct H as [H1 H].
  apply andb_true_iff in H. destruct H as [H2 H].
  apply andb_true_iff in H. destruct H as [H3 H].
  apply andb_true_iff in H. destruct H as [H4 _].
  unfold MarshalJSON.
  rewrite (field_float_finite "temperature" _ H1), (field_float_finite "top_p" _ H2),
    (field_float_finite "presence_penalty" _ H3),
    (field_float_finite "frequency_penalty" _ H4).
  unfold json.field, json.field_int_omitempty, json.field_string_omitempty,
    json.field_bool_omitempty.
  cbn [json.structEncoder]. rewrite app_nil_r.
  destruct (req_Stream req); reflexivity.
Qed.

(** What [MarshalJSON] answers, by the first float field that is not
    finite. *)
Lemma MarshalJSON_outcome (req : ChatCompletionRequest OnUpdateHandler) :
  match find (fun f => negb (PrimFloat.is_finite f)) (floatFields req) with
  | Some f => MarshalJSON req = inl (json.UnsupportedValueError f)
  | None => exists v : json.Value, MarshalJSON req = inr v
  end.
Proof.
  unfold floatFields. cbn [find].
  destruct (PrimFloat.is_finite (req_Temperature req)) eqn:H1; cbn [negb].
  2: { unfold MarshalJSON.
       rewrite (field_float_not_finite "temperature" _ H1). reflexivity. }
  destruct (PrimFloat.is_finite (req_TopP req)) eqn:H2; cbn [negb].
  2: { unfold MarshalJSON.
       rewrite (field_float_finite "temperature" _ H1),
         (field_float_not_finite "top_p" _ H2). reflexivity. }
  destruct (PrimFloat.is_finite (req_PresencePenalty req)) eqn:H3; cbn [negb].
  2: { unfold MarshalJSON.
       rewrite (field_float_finite "temperature" _ H1), (field_float_finite "top_p" _ H2),
         (field_float_not_finite "presence_penalty" _ H3).
       unfold json.field, json.field_int_omitempty, json.field_string_omitempty.
       reflexivity. }
  destruct (PrimFloat.is_finite (req_FrequencyPenalty req)) eqn:H4; cbn [negb].
  2: { unfold MarshalJSON.
       rewrite (field_float_finite "temperature" _ H1), (field_float_finite "top_p" _ H2),
         (field_float_finite "presence_penalty" _ H3),
         (field_float_not_finite "frequency_penalty" _ H4).
       unfold json.field, json.field_int_omitempty, json.field_string_omitempty.
       reflexivity. }
  eexists. apply MarshalJSON_object.
  unfold floatFields. cbn [forallb]. rewrite H1, H2, H3, H4. reflexivity.
Qed.

(** X1. [MarshalJSON] fails exactly when one of the four float fields is
    NaN or infinite: with all of them finite it writes an object, whatever
    the other fields hold; otherwise its error is the encoder's "unsupported
    value" for the first such field in the order temperature, top_p,
    presence_penalty, frequency_penalty. *)
Theorem MarshalJSON_fails_on_non_finite (req : ChatCompletionRequest OnUpdateHandler) :
  (forallb PrimFloat.is_finite (floatFields req) = true <->
   exists v : json.Value, MarshalJSON req = inr v) /\
  (forall f : float,
     find (fun f => negb (PrimFloat.is_finite f)) (floatFields req) = Some f ->
     MarshalJSON req = inl (json.UnsupportedValueError f)).
Proof.
  split; [split|].
  - intro H. eexists. apply (MarshalJSON_object req H).
  - intros [v H]. pose proof (MarshalJSON_outcome req) as Ho.
    destruct (find (fun f => negb (PrimFloat.is_finite f)) (floatFields req)) eqn:E.
    + congruence.
    + apply forallb_forall. intros x Hx.
      pose proof (find_none _ _ E x Hx) as Hn. apply negb_false_iff in Hn. exact Hn.
  - intros f Hf. pose proof (MarshalJSON_outcome req) as Ho. rewrite Hf in Ho. exact Ho.
Qed.

Lemma MarshalJSON_inr_finite (req : ChatCompletionRequest OnUpdateHandler) (v : json.Value) :
  MarshalJSON req = inr v ->
  forallb PrimFloat.is_finite (floatFields req) = true.
Proof.
  intro H. unfold floatFields. cbn [forallb]. unfold MarshalJSON in H.
  destruct (PrimFloat.is_finite (req_Temperature req)) eqn:H1;
    [rewrite (field_float_finite "temperature" _ H1) in H
    |rewrite (field_float_not_finite "temperature" _ H1) in H; discriminate].
  destruct (PrimFloat.is_finite (req_TopP req)) eqn:H2;
    [rewrite (field_float_finite "top_p" _ H2) in H
    |rewrite (field_float_not_finite "top_p" _ H2) in H; discriminate].
  destruct (PrimFloat.is_finite (req_PresencePenalty req)) eqn:H3;
    [rewrite (field_float_finite "presence_penalty" _ H3) in H
    |rewrite (field_float_not_finite "presence_penalty" _ H3) in H;
     unfold json.field, json.field_int_omitempty, json.field_string_omitempty in H;
     discriminate].
  destruct (PrimFloat.is_finite (req_FrequencyPenalty req)) eqn:H4;
    [reflexivity
    |rewrite (field_float_not_finite "frequency_penalty" _ H4) in H;
     unfold json.field, json.field_int_omitempty, json.field_string_omitempty in H;
     discriminate].
Qed.

(** The members of the object written are the slots that hold a value, in
    the order of the slots. *)
Lemma MarshalJSON_slots (req : ChatCompletionRequest OnUpdateHandler) (v : json.Value) :
  MarshalJSON req = inr v ->
  v = json.JObject
        (flat_map (fun slot : string * option json.Value =>
                     match snd slot with
                     | Some x => [(fst slot, x)]
                     | None => []
                     end) (wireSlots req)).
Proof.
  intro H. rewrite (MarshalJSON_object req (MarshalJSON_inr_finite req v H)) in H.
  injection H as <-. unfold wireSlots. cbn [flat_map fst snd app].
  destruct (req_MaxTokens req =? 0)%Z;
    destruct (PrimFloat.eqb (req_Temperature req) PrimFloat.zero);
    destruct (PrimFloat.eqb (req_TopP req) PrimFloat.zero);
    destruct (String.eqb (req_SearchRecencyFilter req) "");
    destruct (req_TopK req =? 0)%Z;
    destruct (PrimFloat.eqb (req_PresencePenalty req) PrimFloat.zero);
    destruct (PrimFloat.eqb (req_FrequencyPenalty req) PrimFloat.zero);
    destruct (req_Stream req); reflexivity.
Qed.

(** Looking a key up among the written slots of a list of slots with
    distinct keys: the value of the slot of that key. *)
Lemma lookup_slots (key : string) :
  forall slots : list (string * option json.Value),
    NoDup (map fst slots) ->
    match find (fun kv : string * json.Value => String.eqb (fst kv) key)
            (flat_map (fun slot : string * option json.Value =>
                         match snd slot with
                         | Some x => [(fst slot, x)]
                         | None => []
                         end) slots) with
    | Some kv => Some (snd kv)
    | None => None
    end
    = match find (fun slot : string * option json.Value => String.eqb (fst slot) key) slots with
      | Some slot => snd slot
      | None => None
      end.
Proof.
  induction slots as [|[k o] slots IH]; intro Hnd; [reflexivity|].
  inversion Hnd as [|? ? Hnotin Hnd']; subst.
  cbn [flat_map find fst snd].
  destruct (String.eqb k key) eqn:E.
  - apply String.eqb_eq in E. subst k.
    destruct o as [x|]; cbn [app find fst snd].
    + rewrite String.eqb_refl. reflexivity.
    + (* the slot is empty, and no later slot has this key *)
      assert (forall l : list (string * option json.Value),
                ~ In key (map fst l) ->
                find (fun kv : string * json.Value => String.eqb (fst kv) key)
                  (flat_map (fun slot : string * option json.Value =>
                               match snd slot with
                               | Some x => [(fst slot, x)]
                               | None => []
                               end) l) = None) as Hnone.
      { induction l as [|[k' o'] l IHl]; intro Hn; [reflexivity|].
        cbn [flat_map fst snd]. cbn [map fst In] in Hn.
        destruct o' as [x'|]; cbn [app find fst].
        - destruct (String.eqb k' key) eqn:E'.
          + apply String.eqb_eq in E'. tauto.
          + apply IHl. tauto.
        - apply IHl. tauto. }
      rewrite (Hnone slots Hnotin). reflexivity.
  - destruct o as [x|]; cbn [app find fst snd]; [rewrite E|]; apply IH; exact Hnd'.
Qed.

Lemma wireSlots_keys (req : ChatCompletionRequest OnUpdateHandler) :
  map fst (wireSlots req) = wireKeys.
Proof. reflexivity. Qed.

Lemma wireKeys_NoDup : NoDup wireKeys.
Proof.
  unfold wireKeys.
  repeat (constructor; [cbn; intuition discriminate|]). constructor.
Qed.

(** X2. In the object [MarshalJSON] writes, every key holds what the struct
    tags say: the mandatory fields (model, messages, the three return flags,
    search_domain_filter) are always there with the field's value, a nil
    slice as null; an [omitempty] field is there exactly when it is not
    false, 0 or empty; "stream" is there, as true, exactly when the request
    has a callback; and no other key is there. *)
Theorem MarshalJSON_members (req : ChatCompletionRequest OnUpdateHandler) (v : json.Value) :
  MarshalJSON req = inr v ->
  forall key : string, json.lookup key v = wireMember req key.
Proof.
  intros H key. rewrite (MarshalJSON_slots req v H).
  unfold json.lookup, wireMember.
  apply lookup_slots. rewrite wireSlots_keys. apply wireKeys_NoDup.
Qed.

(** X3. The object [MarshalJSON] writes has its keys in the order of the
    struct fields, the derived "stream" last, and no key twice. *)
Theorem MarshalJSON_keys (req : ChatCompletionRequest OnUpdateHandler) (v : json.Value) :
  MarshalJSON req = inr v ->
  json.keys v = filter (fun key => isSome (wireMember req key)) wireKeys /\
  NoDup (json.keys v).
Proof.
  intro H.
  assert (json.keys v = filter (fun key => isSome (wireMember req key)) wireKeys) as Hk.
  { rewrite (MarshalJSON_slots req v H).
    unfold json.keys, wireKeys, wireMember, wireSlots.
    destruct (req_MaxTokens req =? 0)%Z;
      destruct (PrimFloat.eqb (req_Temperature req) PrimFloat.zero);
      destruct (PrimFloat.eqb (req_TopP req) PrimFloat.zero);
      destruct (String.eqb (req_SearchRecencyFilter req) "");
      destruct (req_TopK req =? 0)%Z;
      destruct (PrimFloat.eqb (req_PresencePenalty req) PrimFloat.zero);
      destruct (PrimFloat.eqb (req_FrequencyPenalty req) PrimFloat.zero);
      destruct (req_Stream req); reflexivity. }
  split; [exact Hk|]. rewrite Hk. apply NoDup_filter, wireKeys_NoDup.
Qed.

End Wire.

(** ** ChatCompletion, over all its paths *)

Section Paths.

Variable Context : Type.
Variable OnUpdateHandler : Type.
Variable unmarshalResponse : string -> result ChatCompletionResponse.
Variable unmarshalApiError : string -> result apiError.
Variable parseURL : string -> option error.

(** The reading loop only ever adds callback invocations, all of them of
    the callback it was given. *)
Lemma streamLoop_updates (h : OnUpdateHandler) :
  forall (fuel : nat) (s : bufio.Scanner) (w : World Context OnUpdateHandler),
    exists rs : list ChatCompletionResponse,
      updates (snd (streamLoop unmarshalResponse fuel h s w))
      = (updates w ++ map (pair h) rs)%list.
Proof.
  induction fuel as [|fuel IH]; intros s w.
  - exists []. cbn. rewrite app_nil_r. reflexivity.
  - destruct (bufio.Scan s) as [more s'] eqn:HS. destruct more.
    + rewrite (streamLoop_step Context OnUpdateHandler unmarshalResponse fuel h s s' w HS).
      destruct (lineAction unmarshalResponse (bufio.Text s')).
      * destruct (IH s' (after 1 [] w)) as [rs ->]. exists rs.
        cbn. rewrite app_nil_r. reflexivity.
      * exists []. cbn. rewrite !app_nil_r. reflexivity.
      * exists []. cbn. rewrite !app_nil_r. reflexivity.
      * destruct (IH s' (after 1 [(h, response)] w)) as [rs ->]. exists (response :: rs).
        cbn. rewrite <- app_assoc. reflexivity.
    + exists []. cbn [streamLoop]. unfold bind, Scan, reading, ret. rewrite HS.
      cbn. rewrite app_nil_r. reflexivity.
Qed.

Lemma handleStreamingResponse_frame (res : http.Response) (h : OnUpdateHandler)
    (w : World Context OnUpdateHandler) :
  exchanges (snd (handleStreamingResponse unmarshalResponse res (Some h) w)) = exchanges w /\
  exists rs : list ChatCompletionResponse,
    updates (snd (handleStreamingResponse unmarshalResponse res (Some h) w))
    = (updates w ++ map (pair h) rs)%list.
Proof.
  unfold handleStreamingResponse, defer. unfold bind.
  pose proof (streamLoop_closes Context OnUpdateHandler unmarshalResponse h
                (S (String.length (http.Body res)))
                (bufio.NewScanner (http.Body res) (http.BodyErr res)) w) as [_ He].
  destruct (streamLoop_updates h (S (String.length (http.Body res)))
              (bufio.NewScanner (http.Body res) (http.BodyErr res)) w) as [rs Hu].
  destruct (streamLoop unmarshalResponse (S (String.length (http.Body res))) h
              (bufio.NewScanner (http.Body res) (http.BodyErr res)) w) as [out w'].
  cbn [snd] in He, Hu.
  destruct out as [sc|e]; [destruct (bufio.Err sc)|];
    unfold ret, Close; cbn; (split; [exact He | exists rs; exact Hu]).
Qed.

(** What [receive] leaves of the world: nothing more is sent, and the
    callback invocations added are those of the request's callback. *)
Lemma receive_frame (res : http.Response) (req : ChatCompletionRequest OnUpdateHandler)
    (w : World Context OnUpdateHandler) :
  exchanges (snd (receive unmarshalResponse unmarshalApiError res req w)) = exchanges w /\
  exists us : list (OnUpdateHandler * ChatCompletionResponse),
    updates (snd (receive unmarshalResponse unmarshalApiError res req w))
    = (updates w ++ us)%list /\
    Forall (fun u => req_Stream req = Some (fst u)) us.
Proof.
  destruct (Z.eq_dec (http.StatusCode res) http.StatusOK) as [Hst|Hst].
  2: { rewrite (receive_status Context OnUpdateHandler unmarshalResponse unmarshalApiError
                  res req w Hst).
       split; [reflexivity|]. exists []. split; [reflexivity | constructor]. }
  destruct (isEventStream (http.Get (http.RespHeader res) "Content-Type")) eqn:Hct.
  2: { rewrite (receive_document Context OnUpdateHandler unmarshalResponse unmarshalApiError
                  res req w Hst Hct).
       split; [reflexivity|]. exists []. split; [reflexivity | constructor]. }
  rewrite (receive_stream Context OnUpdateHandler unmarshalResponse unmarshalApiError
             res req w Hst Hct).
  destruct (req_Stream req) as [h|] eqn:Hh.
  - destruct (handleStreamingResponse_frame res h w) as [He [rs Hu]]. cbn [snd].
    split; [exact He|]. exists (map (pair h) rs). split; [exact Hu|].
    apply Forall_forall. intros u Hin. apply in_map_iff in Hin.
    destruct Hin as (r & <- & _). reflexivity.
  - split; [reflexivity|]. exists []. cbn. rewrite app_nil_r.
    split; [reflexivity | constructor].
Qed.

(** X4. Whatever the client, the request and the response: [ChatCompletion]
    returns a response with a nil error, or an error with a nil response,
    or nil and nil; the last only to a request that has a callback.  It
    never returns a response together with an error. *)
Theorem response_or_error (c : Client Context) (ctx : Context)
    (req : ChatCompletionRequest OnUpdateHandler) (w : World Context OnUpdateHandler) :
  (exists response,
     fst (ChatCompletion unmarshalResponse unmarshalApiError parseURL c ctx req w)
     = (Some response, None))
  \/ (exists err,
        fst (ChatCompletion unmarshalResponse unmarshalApiError parseURL c ctx req w)
        = (None, Some err))
  \/ (fst (ChatCompletion unmarshalResponse unmarshalApiError parseURL c ctx req w)
      = (None, None)
      /\ req_Stream req <> None).
Proof.
  destruct (prepared parseURL c ctx req) as [err|httpReq] eqn:Hp.
  { rewrite (ChatCompletion_refused Context OnUpdateHandler unmarshalResponse
               unmarshalApiError parseURL c ctx req w err Hp).
    right; left. exists err. reflexivity. }
  destruct (client c httpReq) as [err|res] eqn:Hc.
  { rewrite (ChatCompletion_transport_error Context OnUpdateHandler unmarshalResponse
               unmarshalApiError parseURL c ctx req w httpReq err Hp Hc).
    right; left. exists err. reflexivity. }
  rewrite (ChatCompletion_exchange Context OnUpdateHandler unmarshalResponse
             unmarshalApiError parseURL c ctx req w httpReq res Hp Hc).
  cbn [fst].
  destruct (Z.eq_dec (http.StatusCode res) http.StatusOK) as [Hst|Hst].
  2: { rewrite (receive_status Context OnUpdateHandler unmarshalResponse unmarshalApiError
                  res req _ Hst).
       right; left. eexists. reflexivity. }
  destruct (isEventStream (http.Get (http.RespHeader res) "Content-Type")) eqn:Hct.
  - rewrite (receive_stream Context OnUpdateHandler unmarshalResponse unmarshalApiError
               res req _ Hst Hct).
    destruct (req_Stream req) as [h|]; [|right; left; eexists; reflexivity].
    cbn [fst].
    destruct (fst (handleStreamingResponse unmarshalResponse res (Some h)
                     (sent httpReq w))) as [e|].
    + right; left. exists e. reflexivity.
    + right; right. split; [reflexivity | discriminate].
  - rewrite (receive_document Context OnUpdateHandler unmarshalResponse unmarshalApiError
               res req _ Hst Hct).
    cbn [fst]. destruct (http.BodyErr res) as [e|]; [right; left; exists e; reflexivity|].
    destruct (unmarshalResponse (http.Body res)) as [e|r].
    + right; left. exists e. reflexivity.
    + left. exists r. reflexivity.
Qed.

(** X5. A call hands at most one request to the transport: none when the
    request is refused (validation, marshalling or the target URL), and
    otherwise the prepared request, once, whatever the response.  Nothing is
    sent again. *)
Theorem one_exchange_per_call (c : Client Context) (ctx : Context)
    (req : ChatCompletionRequest OnUpdateHandler) (w : World Context OnUpdateHandler) :
  exchanges (snd (ChatCompletion unmarshalResponse unmarshalApiError parseURL c ctx req w))
  = (exchanges w ++ match prepared parseURL c ctx req with
                    | inl _ => []
                    | inr httpReq => [httpReq]
                    end)%list.
Proof.
  destruct (prepared parseURL c ctx req) as [err|httpReq] eqn:Hp.
  { rewrite (ChatCompletion_refused Context OnUpdateHandler unmarshalResponse
               unmarshalApiError parseURL c ctx req w err Hp).
    cbn. rewrite app_nil_r. reflexivity. }
  destruct (client c httpReq) as [err|res] eqn:Hc.
  { rewrite (ChatCompletion_transport_error Context OnUpdateHandler unmarshalResponse
               unmarshalApiError parseURL c ctx req w httpReq err Hp Hc).
    reflexivity. }
  rewrite (ChatCompletion_exchange Context OnUpdateHandler unmarshalResponse
             unmarshalApiError parseURL c ctx req w httpReq res Hp Hc).
  cbn [snd closed exchanges].
  destruct (receive_frame res req (sent httpReq w)) as [-> _]. reflexivity.
Qed.

(** X6. The callback invocations of a call come after those made before
    it, and every one of them is an invocation of the request's own
    callback; a request without callback has none. *)
Theorem only_the_request_callback (c : Client Context) (ctx : Context)
    (req : ChatCompletionRequest OnUpdateHandler) (w : World Context OnUpdateHandler) :
  exists us : list (OnUpdateHandler * ChatCompletionResponse),
    updates (snd (ChatCompletion unmarshalResponse unmarshalApiError parseURL c ctx req w))
    = (updates w ++ us)%list /\
    Forall (fun u => req_Stream req = Some (fst u)) us.
Proof.
  destruct (prepared parseURL c ctx req) as [err|httpReq] eqn:Hp.
  { rewrite (ChatCompletion_refused Context OnUpdateHandler unmarshalResponse
               unmarshalApiError parseURL c ctx req w err Hp).
    exists []. cbn. rewrite app_nil_r. split; [reflexivity | constructor]. }
  destruct (client c httpReq) as [err|res] eqn:Hc.
  { rewrite (ChatCompletion_transport_error Context OnUpdateHandler unmarshalResponse
               unmarshalApiError parseURL c ctx req w httpReq err Hp Hc).
    exists []. cbn. rewrite app_nil_r. split; [reflexivity | constructor]. }
  rewrite (ChatCompletion_exchange Context OnUpdateHandler unmarshalResponse
             unmarshalApiError parseURL c ctx req w httpReq res Hp Hc).
  cbn [snd closed updates].
  destruct (receive_frame res req (sent httpReq w)) as [_ (us & Hu & Hall)].
  exists us. split; [exact Hu | exact Hall].
Qed.

(** The shape of a prepared request. *)
Lemma prepared_shape (c : Client Context) (ctx : Context)
    (req : ChatCompletionRequest OnUpdateHandler) (httpReq : http.Request Context) :
  prepared parseURL c ctx req = inr httpReq ->
  validate req = None /\
  parseURL (baseURL c ++ "/chat/completions") = None /\
  httpReq = {| http.Ctx := ctx; http.Method := "POST";
               http.URL := baseURL c ++ "/chat/completions";
               http.ReqHeader := [("Authorization", "Bearer " ++ token c);
                                  ("Content-Type", "application/json")];
               http.ReqBody := http.ReqBody httpReq |} /\
  MarshalJSON req = inr (http.ReqBody httpReq).
Proof.
  unfold prepared, Marshal, NewRequestWithContext. intro H.
  destruct (validate req); [discriminate|].
  destruct (MarshalJSON req) as [e|v]; [discriminate|].
  destruct (parseURL (baseURL c ++ "/chat/completions")); [discriminate|].
  injection H as <-. repeat split.
Qed.

(** X7. The request a call hands to the transport is a POST to the
    client's base URL followed by "/chat/completions", under the caller's
    context, with exactly two headers, Authorization "Bearer <token>" and
    Content-Type "application/json", and with the object [MarshalJSON]
    writes for the request as its body. *)
Theorem outgoing_request (c : Client Context) (ctx : Context)
    (req : ChatCompletionRequest OnUpdateHandler) (w : World Context OnUpdateHandler)
    (httpReq : http.Request Context) :
  exchanges (snd (ChatCompletion unmarshalResponse unmarshalApiError parseURL c ctx req w))
  = (exchanges w ++ [httpReq])%list ->
  http.Method httpReq = http.MethodPost /\
  http.URL httpReq = baseURL c ++ "/chat/completions" /\
  http.Ctx httpReq = ctx /\
  http.ReqHeader httpReq = [("Authorization", "Bearer " ++ token c);
                            ("Content-Type", "application/json")] /\
  http.Get (http.ReqHeader httpReq) "Authorization" = "Bearer " ++ token c /\
  http.Get (http.ReqHeader httpReq) "Content-Type" = "application/json" /\
  MarshalJSON req = inr (http.ReqBody httpReq).
Proof.
  intro H.
  assert (prepared parseURL c ctx req = inr httpReq) as Hp.
  { destruct (prepared parseURL c ctx req) as [err|r] eqn:Hp.
    - rewrite (ChatCompletion_refused Context OnUpdateHandler unmarshalResponse
                 unmarshalApiError parseURL c ctx req w err Hp) in H.
      cbn [snd] in H. rewrite <- (app_nil_r (exchanges w)) in H at 1.
      apply app_inv_head in H. discriminate.
    - assert (exchanges (snd (ChatCompletion unmarshalResponse unmarshalApiError parseURL
                                c ctx req w)) = (exchanges w ++ [r])%list) as Hr.
      { destruct (client c r) as [err|res] eqn:Hc.
        - rewrite (ChatCompletion_transport_error Context OnUpdateHandler unmarshalResponse
                     unmarshalApiError parseURL c ctx req w r err Hp Hc). reflexivity.
        - rewrite (ChatCompletion_exchange Context OnUpdateHandler unmarshalResponse
                     unmarshalApiError parseURL c ctx req w r res Hp Hc).
          cbn [snd closed exchanges].
          destruct (receive_frame res req (sent r w)) as [-> _]. reflexivity. }
      rewrite Hr in H. apply app_inv_head in H. congruence. }
  destruct (prepared_shape c ctx req httpReq Hp) as (_ & _ & Hshape & Hm).
  rewrite Hshape. cbn. repeat split. exact Hm.
Qed.

(** X8. A client made by [NewClient] sends to the base URL of its options
    when there are options with a non-empty base URL, and to the default
    base URL "https://api.perplexity.ai" otherwise (nil options, or an
    empty base URL), with the given token as bearer. *)
Theorem NewClient_target
    (defaultClient : http.Request Context -> result http.Response)
    (tok : string) (options : option (ClientOptions Context)) (ctx : Context)
    (req : ChatCompletionRequest OnUpdateHandler) (w : World Context OnUpdateHandler)
    (httpReq : http.Request Context) :
  exchanges (snd (ChatCompletion unmarshalResponse unmarshalApiError parseURL
                    (NewClient defaultClient tok options) ctx req w))
  = (exchanges w ++ [httpReq])%list ->
  http.URL httpReq
  = match options with
    | Some o => if String.eqb (opt_BaseURL o) "" then DefaultBaseURL else opt_BaseURL o
    | None => DefaultBaseURL
    end ++ "/chat/completions" /\
  http.Get (http.ReqHeader httpReq) "Authorization" = "Bearer " ++ tok.
Proof.
  intro H.
  assert (prepared parseURL (NewClient defaultClient tok options) ctx req = inr httpReq)
    as Hp.
  { destruct (prepared parseURL (NewClient defaultClient tok options) ctx req)
      as [err|r] eqn:Hp.
    - rewrite (ChatCompletion_refused Context OnUpdateHandler unmarshalResponse
                 unmarshalApiError parseURL _ ctx req w err Hp) in H.
      cbn [snd] in H. rewrite <- (app_nil_r (exchanges w)) in H at 1.
      apply app_inv_head in H. discriminate.
    - assert (exchanges (snd (ChatCompletion unmarshalResponse unmarshalApiError parseURL
                                (NewClient defaultClient tok options) ctx req w))
              = (exchanges w ++ [r])%list) as Hr.
      { destruct (client (NewClient defaultClient tok options) r) as [err|res] eqn:Hc.
        - rewrite (ChatCompletion_transport_error Context OnUpdateHandler unmarshalResponse
                     unmarshalApiError parseURL _ ctx req w r err Hp Hc). reflexivity.
        - rewrite (ChatCompletion_exchange Context OnUpdateHandler unmarshalResponse
                     unmarshalApiError parseURL _ ctx req w r res Hp Hc).
          cbn [snd closed exchanges].
          destruct (receive_frame res req (sent r w)) as [-> _]. reflexivity. }
      rewrite Hr in H. apply app_inv_head in H. congruence. }
  destruct (prepared_shape _ ctx req httpReq Hp) as (_ & _ & Hshape & _).
  rewrite Hshape. cbn [http.URL http.ReqHeader]. split.
  - unfold NewClient. cbn [baseURL].
    destruct options as [o|]; [|reflexivity].
    destruct (String.eqb (opt_BaseURL o) ""); reflexivity.
  - reflexivity.
Qed.

(** X9. When the transport fails, its error is returned as it is, with a
    nil response; the request has been handed over once, and there is no
    body: nothing is read, closed or called. *)
Theorem transport_error_returned (c : Client Context) (ctx : Context)
    (req : ChatCompletionRequest OnUpdateHandler) (w : World Context OnUpdateHandler)
    (httpReq : http.Request Context) (err : error) :
  prepared parseURL c ctx req = inr httpReq ->
  client c httpReq = inl err ->
  ChatCompletion unmarshalResponse unmarshalApiError parseURL c ctx req w
  = ((None, Some err),
     {| exchanges := exchanges w ++ [httpReq];
        bodyReads := bodyReads w;
        bodyCloses := bodyCloses w;
        updates := updates w |}).
Proof.
  intros Hp Hc.
  rewrite (ChatCompletion_transport_error Context OnUpdateHandler unmarshalResponse
             unmarshalApiError parseURL c ctx req w httpReq err Hp Hc).
  reflexivity.
Qed.

(** A request that keeps the four rules passes the checks. *)
Lemma validate_wellFormed (req : ChatCompletionRequest OnUpdateHandler) :
  wellFormed req -> validate req = None.
Proof.
  intros (Hm & (earlier & last & He & Hr) & Hpen). unfold validate.
  apply String.eqb_neq in Hm. rewrite Hm.
  unfold len. rewrite He, length_app. cbn [List.length].
  replace (List.length earlier + 1 =? 0)%nat with false
    by (symmetry; apply Nat.eqb_neq; lia).
  replace (List.length earlier + 1 - 1) with (List.length earlier) by lia.
  rewrite nth_middle, Hr, String.eqb_refl. cbn [negb].
  destruct Hpen as [-> | ->]; cbn [negb andb]; [reflexivity|].
  rewrite andb_false_r. reflexivity.
Qed.

(** X10. A request that keeps the four rules and whose floats are finite
    always reaches the transport, when the target URL parses: there is no
    further check on it (none of the documented ranges of temperature,
    top_p, top_k or the penalties, no list of known models or roles). *)
Theorem well_formed_request_is_sent (c : Client Context) (ctx : Context)
    (req : ChatCompletionRequest OnUpdateHandler) (w : World Context OnUpdateHandler) :
  wellFormed req ->
  forallb PrimFloat.is_finite (floatFields req) = true ->
  parseURL (baseURL c ++ "/chat/completions") = None ->
  exists httpReq : http.Request Context,
    exchanges (snd (ChatCompletion unmarshalResponse unmarshalApiError parseURL c ctx req w))
    = (exchanges w ++ [httpReq])%list /\
    MarshalJSON req = inr (http.ReqBody httpReq).
Proof.
  intros Hwf Hfin Hurl.
  assert (exists httpReq, prepared parseURL c ctx req = inr httpReq) as [httpReq Hp].
  { unfold prepared, Marshal, NewRequestWithContext.
    rewrite (validate_wellFormed req Hwf), (MarshalJSON_object OnUpdateHandler req Hfin), Hurl.
    eexists. reflexivity. }
  exists httpReq. split.
  - destruct (client c httpReq) as [err|res] eqn:Hc.
    + rewrite (ChatCompletion_transport_error Context OnUpdateHandler unmarshalResponse
                 unmarshalApiError parseURL c ctx req w httpReq err Hp Hc). reflexivity.
    + rewrite (ChatCompletion_exchange Context OnUpdateHandler unmarshalResponse
                 unmarshalApiError parseURL c ctx req w httpReq res Hp Hc).
      cbn [snd closed exchanges].
      destruct (receive_frame res req (sent httpReq w)) as [-> _]. reflexivity.
  - apply (prepared_shape c ctx req httpReq Hp).
Qed.

(** X11. A request that passes the checks but has a NaN or infinite float
    field is refused before any exchange: the error is the encoder's
    "unsupported value" for the first such field, reported as the failure
    of the request's [MarshalJSON], and the world is as it was. *)
Theorem non_finite_float_refused (c : Client Context) (ctx : Context)
    (req : ChatCompletionRequest OnUpdateHandler) (w : World Context OnUpdateHandler)
    (f : float) :
  validate req = None ->
  find (fun f => negb (PrimFloat.is_finite f)) (floatFields req) = Some f ->
  ChatCompletion unmarshalResponse unmarshalApiError parseURL c ctx req w
  = ((None,
      Some (json.MarshalerError "*perplexity.ChatCompletionRequest"
              (json.UnsupportedValueError f))),
     w).
Proof.
  intros Hv Hf.
  apply ChatCompletion_refused. unfold prepared, Marshal. rewrite Hv.
  pose proof (MarshalJSON_outcome OnUpdateHandler req) as Ho. rewrite Hf in Ho.
  rewrite Ho. reflexivity.
Qed.

(** X12. On the document path (status 200, no event stream) a failure is
    returned as it is, not wrapped, with a nil response: the error of
    reading the body when reading fails, else the decoder's error when the
    body does not decode.  The body has been read once and closed once, and
    the callback has not been called. *)
Theorem document_errors_returned (c : Client Context) (ctx : Context)
    (req : ChatCompletionRequest OnUpdateHandler) (w : World Context OnUpdateHandler)
    (httpReq : http.Request Context) (res : http.Response) (err : error) :
  prepared parseURL c ctx req = inr httpReq ->
  client c httpReq = inr res ->
  http.StatusCode res = http.StatusOK ->
  isEventStream (http.Get (http.RespHeader res) "Content-Type") = false ->
  http.BodyErr res = Some err
  \/ (http.BodyErr res = None /\ unmarshalResponse (http.Body res) = inl err) ->
  ChatCompletion unmarshalResponse unmarshalApiError parseURL c ctx req w
  = ((None, Some err),
     {| exchanges := exchanges w ++ [httpReq];
        bodyReads := S (bodyReads w);
        bodyCloses := S (bodyCloses w);
        updates := updates w |}).
Proof.
  intros Hp Hc Hst Hct Herr.
  rewrite (ChatCompletion_exchange Context OnUpdateHandler unmarshalResponse
             unmarshalApiError parseURL c ctx req w httpReq res Hp Hc).
  rewrite (receive_document Context OnUpdateHandler unmarshalResponse unmarshalApiError
             res req _ Hst Hct).
  cbn [fst snd]. unfold closed, after, sent. cbn. rewrite app_nil_r.
  destruct Herr as [-> | [-> ->]]; reflexivity.
Qed.

(** X13. How often a call closes the body: never when there is no response
    (the request is refused, or the transport fails), twice on the streaming
    path with a callback, and once on every other path. *)
Theorem close_count (c : Client Context) (ctx : Context)
    (req : ChatCompletionRequest OnUpdateHandler) (w : World Context OnUpdateHandler) :
  bodyCloses (snd (ChatCompletion unmarshalResponse unmarshalApiError parseURL c ctx req w))
  = match prepared parseURL c ctx req with
    | inl _ => 0
    | inr httpReq =>
        match client c httpReq with
        | inl _ => 0
        | inr res =>
            if (http.StatusCode res =? http.StatusOK)%Z
               && isEventStream (http.Get (http.RespHeader res) "Content-Type")
               && isSome (req_Stream req)
            then 2 else 1
        end
    end + bodyCloses w.
Proof.
  destruct (prepared parseURL c ctx req) as [err|httpReq] eqn:Hp.
  { rewrite (ChatCompletion_refused Context OnUpdateHandler unmarshalResponse
               unmarshalApiError parseURL c ctx req w err Hp). reflexivity. }
  destruct (client c httpReq) as [err|res] eqn:Hc.
  { rewrite (ChatCompletion_transport_error Context OnUpdateHandler unmarshalResponse
               unmarshalApiError parseURL c ctx req w httpReq err Hp Hc). reflexivity. }
  destruct (Z.eqb_spec (http.StatusCode res) http.StatusOK) as [Hst|Hst]; cbn [andb].
  2: { apply (closes_once Context OnUpdateHandler unmarshalResponse unmarshalApiError
                parseURL c ctx req w httpReq res Hp Hc). left. exact Hst. }
  destruct (isEventStream (http.Get (http.RespHeader res) "Content-Type")) eqn:Hct;
    cbn [andb].
  2: { apply (closes_once Context OnUpdateHandler unmarshalResponse unmarshalApiError
                parseURL c ctx req w httpReq res Hp Hc). right; left. exact Hct. }
  destruct (req_Stream req) as [h|] eqn:Hh; cbn [isSome].
  - rewrite (ChatCompletion_exchange Context OnUpdateHandler unmarshalResponse
               unmarshalApiError parseURL c ctx req w httpReq res Hp Hc). cbn [snd].
    rewrite (receive_stream Context OnUpdateHandler unmarshalResponse unmarshalApiError
               res req _ Hst Hct), Hh. cbn [snd closed bodyCloses].
    rewrite (handleStreamingResponse_closes Context OnUpdateHandler unmarshalResponse).
    reflexivity.
  - apply (closes_once Context OnUpdateHandler unmarshalResponse unmarshalApiError
             parseURL c ctx req w httpReq res Hp Hc). right; right. exact Hh.
Qed.

End Paths.

(** ** Streams that end without the sentinel *)

Lemma Scan_end (s : bufio.Scanner) :
  bufio.src s = "" ->
  bufio.Scan s = (false, {| bufio.src := ""; bufio.srcErr := bufio.srcErr s;
                            bufio.err := bufio.srcErr s; bufio.token := bufio.token s |}).
Proof. intro H. unfold bufio.Scan. rewrite H. reflexivity. Qed.

Lemma Scan_too_long (s : bufio.Scanner) (long tail : string) :
  bufio.src s = long ++ tail ->
  singleLine long = true ->
  bufio.fits long = false ->
  tail = "" \/ (exists rest, tail = LF ++ rest) ->
  bufio.Scan s = (false, {| bufio.src := bufio.src s; bufio.srcErr := bufio.srcErr s;
                            bufio.err := Some bufio.ErrTooLong;
                            bufio.token := bufio.token s |}).
Proof.
  intros Hsrc Hl Hfit [-> | [rest ->]]; unfold bufio.Scan.
  - rewrite append_empty_r in Hsrc.
    rewrite Hsrc, (cutLine_single long Hl), Hfit. reflexivity.
  - rewrite Hsrc, (cutLine_feed long rest Hl), Hfit. reflexivity.
Qed.





Section Streams.

Variable Context : Type.
Variable OnUpdateHandler : Type.
Variable unmarshalResponse : string -> result ChatCompletionResponse.
Variable unmarshalApiError : string -> result apiError.
Variable parseURL : string -> option error.

(** [handleStreamingResponse] is its loop, the error for the way the loop
    was left, and one [Close]. *)
Lemma handleStreamingResponse_loop (res : http.Response) (h : OnUpdateHandler)
    (w : World Context OnUpdateHandler) :
  handleStreamingResponse unmarshalResponse res (Some h) w
  = (loopError (fst (streamLoop unmarshalResponse (S (String.length (http.Body res))) h
                       (bufio.NewScanner (http.Body res) (http.BodyErr res)) w)),
     closed 1 (snd (streamLoop unmarshalResponse (S (String.length (http.Body res))) h
                      (bufio.NewScanner (http.Body res) (http.BodyErr res)) w))).
Proof.
  unfold handleStreamingResponse, defer, bind.
  destruct (streamLoop unmarshalResponse (S (String.length (http.Body res))) h
              (bufio.NewScanner (http.Body res) (http.BodyErr res)) w) as [out w'].
  destruct out as [sc|e]; cbn [loopError fst snd]; [destruct (bufio.Err sc)|];
    reflexivity.
Qed.

(** The round in which [Scan] answers false ends the loop. *)
Lemma streamLoop_stops (fuel : nat) (h : OnUpdateHandler) (s s' : bufio.Scanner)
    (w : World Context OnUpdateHandler) :
  bufio.Scan s = (false, s') ->
  streamLoop unmarshalResponse (S fuel) h s w = (Fallthrough s', after 1 [] w).
Proof.
  intro HS. cbn [streamLoop]. unfold bind, Scan, reading, ret. rewrite HS.
  cbn [negb]. f_equal. unfold after. cbn. rewrite app_nil_r. reflexivity.
Qed.

(** The stream whose lines all pass and which then ends. *)
Lemma handleStreamingResponse_end (res : http.Response) (h : OnUpdateHandler)
    (ls : list string) (w : World Context OnUpdateHandler) :
  http.Body res = feed ls "" ->
  Forall (passes unmarshalResponse) ls ->
  handleStreamingResponse unmarshalResponse res (Some h) w
  = (match http.BodyErr res with
     | Some err => Some (fmt.Errorf_w "error reading streaming response: " err)
     | None => None
     end,
     closed 1 (after (S (List.length ls))
                 (map (pair h) (delivered unmarshalResponse ls)) w)).
Proof.
  intros Hbody Hall. rewrite handleStreamingResponse_loop.
  destruct (streamLoop_passes Context OnUpdateHandler unmarshalResponse h ls ""
              (bufio.NewScanner (http.Body res) (http.BodyErr res)) w
              (S (String.length (http.Body res))) Hbody Hall)
    as (s' & E1 & E2 & E3 & E4); [cbn; lia|].
  rewrite E4, (streamLoop_stops _ h s' _ _ (Scan_end s' E1)), after_after.
  cbn [fst snd loopError]. unfold bufio.Err. cbn [bufio.err]. rewrite E2.
  cbn [bufio.NewScanner bufio.srcErr].
  f_equal. unfold closed, after. cbn. rewrite app_nil_r. f_equal. lia.
Qed.

(** The stream whose lines pass up to a line that does not fit the
    scanner's buffer: [bufio.MaxScanTokenSize] bytes or more before a
    newline, or more than that at the end of the body. *)
Lemma handleStreamingResponse_too_long (res : http.Response) (h : OnUpdateHandler)
    (ls : list string) (long tail : string) (w : World Context OnUpdateHandler) :
  http.Body res = feed ls (long ++ tail) ->
  Forall (passes unmarshalResponse) ls ->
  singleLine long = true ->
  ((exists rest, tail = LF ++ rest)
   /\ (bufio.MaxScanTokenSize <= N.of_nat (String.length long))%N)
  \/ (tail = "" /\ (bufio.MaxScanTokenSize < N.of_nat (String.length long))%N) ->
  handleStreamingResponse unmarshalResponse res (Some h) w
  = (Some (fmt.Errorf_w "error reading streaming response: " bufio.ErrTooLong),
     closed 1 (after (S (List.length ls))
                 (map (pair h) (delivered unmarshalResponse ls)) w)).
Proof.
  intros Hbody Hall Hl Hlong.
  assert (bufio.fits long = false) as Hfit.
  { unfold bufio.fits. apply N.ltb_ge.
    destruct Hlong as [[_ Hlen] | [_ Hlen]]; [exact Hlen | apply N.lt_le_incl, Hlen]. }
  assert (tail = "" \/ (exists rest, tail = LF ++ rest)) as Htail
    by (destruct Hlong as [[Ht _] | [Ht _]]; [right; exact Ht | left; exact Ht]).
  rewrite handleStreamingResponse_loop.
  destruct (streamLoop_passes Context OnUpdateHandler unmarshalResponse h ls (long ++ tail)
              (bufio.NewScanner (http.Body res) (http.BodyErr res)) w
              (S (String.length (http.Body res))) Hbody Hall)
    as (s' & E1 & E2 & E3 & E4); [cbn; lia|].
  rewrite E4, (streamLoop_stops _ h s' _ _ (Scan_too_long s' long tail E1 Hl Hfit Htail)),
    after_after.
  cbn [fst snd loopError]. unfold bufio.Err. cbn [bufio.err].
  f_equal. unfold closed, after. cbn. rewrite app_nil_r. f_equal. lia.
Qed.

(** X14. A stream that ends without the sentinel line is no error: when
    every line passes (ignored lines and data lines with valid events) and
    the body then ends cleanly, the callback has been called for every data
    line, in line order, and the call returns nil and nil. *)
Theorem stream_ends_without_sentinel (c : Client Context) (ctx : Context)
    (req : ChatCompletionRequest OnUpdateHandler) (w : World Context OnUpdateHandler)
    (httpReq : http.Request Context) (res : http.Response) (h : OnUpdateHandler)
    (ls : list string) :
  prepared parseURL c ctx req = inr httpReq ->
  client c httpReq = inr res ->
  http.StatusCode res = http.StatusOK ->
  isEventStream (http.Get (http.RespHeader res) "Content-Type") = true ->
  req_Stream req = Some h ->
  Forall (passes unmarshalResponse) ls ->
  http.Body res = feed ls "" ->
  http.BodyErr res = None ->
  fst (ChatCompletion unmarshalResponse unmarshalApiError parseURL c ctx req w)
  = (None, None) /\
  updates (snd (ChatCompletion unmarshalResponse unmarshalApiError parseURL c ctx req w))
  = (updates w ++ map (pair h) (delivered unmarshalResponse ls))%list.
Proof.
  intros Hp Hc Hst Hct Hh Hall Hbody Hclean.
  rewrite (ChatCompletion_exchange Context OnUpdateHandler unmarshalResponse
             unmarshalApiError parseURL c ctx req w httpReq res Hp Hc).
  rewrite (receive_stream Context OnUpdateHandler unmarshalResponse unmarshalApiError
             res req _ Hst Hct), Hh.
  rewrite (handleStreamingResponse_end res h ls _ Hbody Hall), Hclean.
  split; reflexivity.
Qed.

(** X15. When reading the stream fails after lines that all pass, the
    events of those lines have reached the callback and the call returns the
    read error wrapped: its text is "error reading streaming response: "
    followed by the text of the read error, which [errors.Unwrap] gives
    back. *)
Theorem read_error_wrapped (c : Client Context) (ctx : Context)
    (req : ChatCompletionRequest OnUpdateHandler) (w : World Context OnUpdateHandler)
    (httpReq : http.Request Context) (res : http.Response) (h : OnUpdateHandler)
    (ls : list string) (readErr : error) :
  prepared parseURL c ctx req = inr httpReq ->
  client c httpReq = inr res ->
  http.StatusCode res = http.StatusOK ->
  isEventStream (http.Get (http.RespHeader res) "Content-Type") = true ->
  req_Stream req = Some h ->
  Forall (passes unmarshalResponse) ls ->
  http.Body res = feed ls "" ->
  http.BodyErr res = Some readErr ->
  exists err : error,
    fst (ChatCompletion unmarshalResponse unmarshalApiError parseURL c ctx req w)
    = (None, Some err) /\
    Error err = "error reading streaming response: " ++ Error readErr /\
    Unwrap err = Some readErr /\
    updates (snd (ChatCompletion unmarshalResponse unmarshalApiError parseURL c ctx req w))
    = (updates w ++ map (pair h) (delivered unmarshalResponse ls))%list.
Proof.
  intros Hp Hc Hst Hct Hh Hall Hbody Hfail.
  rewrite (ChatCompletion_exchange Context OnUpdateHandler unmarshalResponse
             unmarshalApiError parseURL c ctx req w httpReq res Hp Hc).
  rewrite (receive_stream Context OnUpdateHandler unmarshalResponse unmarshalApiError
             res req _ Hst Hct), Hh.
  rewrite (handleStreamingResponse_end res h ls _ Hbody Hall), Hfail.
  eexists. repeat split.
Qed.

(** X16. A line too long for the scanner, of whatever content, ends the
    stream: a line of [bufio.MaxScanTokenSize] (65536) bytes or more that a
    newline ends, or a last line of more than that many bytes that no
    newline ends.  The events of the lines before it have reached the
    callback, the line itself and what follows it are not looked at, and
    the call returns the scanner's "token too long" wrapped as a read
    error. *)
Theorem long_line_aborts_stream (c : Client Context) (ctx : Context)
    (req : ChatCompletionRequest OnUpdateHandler) (w : World Context OnUpdateHandler)
    (httpReq : http.Request Context) (res : http.Response) (h : OnUpdateHandler)
    (ls : list string) (long tail : string) :
  prepared parseURL c ctx req = inr httpReq ->
  client c httpReq = inr res ->
  http.StatusCode res = http.StatusOK ->
  isEventStream (http.Get (http.RespHeader res) "Content-Type") = true ->
  req_Stream req = Some h ->
  Forall (passes unmarshalResponse) ls ->
  singleLine long = true ->
  ((exists rest, tail = LF ++ rest)
   /\ (bufio.MaxScanTokenSize <= N.of_nat (String.length long))%N)
  \/ (tail = "" /\ (bufio.MaxScanTokenSize < N.of_nat (String.length long))%N) ->
  http.Body res = feed ls (long ++ tail) ->
  fst (ChatCompletion unmarshalResponse unmarshalApiError parseURL c ctx req w)
  = (None, Some (fmt.Errorf_w "error reading streaming response: " bufio.ErrTooLong)) /\
  updates (snd (ChatCompletion unmarshalResponse unmarshalApiError parseURL c ctx req w))
  = (updates w ++ map (pair h) (delivered unmarshalResponse ls))%list.
Proof.
  intros Hp Hc Hst Hct Hh Hall Hl Hlong Hbody.
  rewrite (ChatCompletion_exchange Context OnUpdateHandler unmarshalResponse
             unmarshalApiError parseURL c ctx req w httpReq res Hp Hc).
  rewrite (receive_stream Context OnUpdateHandler unmarshalResponse unmarshalApiError
             res req _ Hst Hct), Hh.
  rewrite (handleStreamingResponse_too_long res h ls long tail _ Hbody Hall Hl Hlong).
  split; reflexivity.
Qed.

(** *** Carriage returns *)



End Streams.

(** ** The further properties at concrete inputs *)

(** X2 at the request with optional fields set: top_k is 0 and not written,
    max_tokens is written. *)
Lemma MarshalJSON_members_witness :
  json.lookup "top_k"
    (json.JObject
       [("model", json.JString "llama-3.1-sonar-small-128k-online");
        ("messages",
         json.JArray
           [json.JObject [("role", json.JString "system");
                          ("content", json.JString "Be precise and concise.")];
            json.JObject [("role", json.JString "user");
                          ("content", json.JString "How many stars are there?")]]);
        ("max_tokens", json.JInt 100);
        ("temperature", json.JFloat 0.5%float);
        ("return_citations", json.JBool true);
        ("search_domain_filter", json.JArray [json.JString "perplexity.ai"]);
        ("return_images", json.JBool false);
        ("return_related_questions", json.JBool false);
        ("search_recency_filter", json.JString "month");
        ("frequency_penalty", json.JFloat 1%float);
        ("stream", json.JBool true)])
  = wireMember (sample.tuned (Some "print")) "top_k".
Proof.
  exact (MarshalJSON_members sample.Handler (sample.tuned (Some "print")) _ eq_refl "top_k").
Defined.

(** X3 at the same request. *)
Lemma MarshalJSON_keys_witness :
  [ "model"; "messages"; "max_tokens"; "temperature"; "return_citations";
    "search_domain_filter"; "return_images"; "return_related_questions";
    "search_recency_filter"; "frequency_penalty"; "stream" ]
  = filter (fun key => isSome (wireMember (sample.tuned (Some "print")) key)) wireKeys.
Proof.
  exact (proj1 (MarshalJSON_keys sample.Handler (sample.tuned (Some "print")) _ eq_refl)).
Defined.

(** X7 and X8 at a client made with nil options. *)
Lemma outgoing_request_witness :
  let sentOut :=
    {| http.Ctx := sample.Background; http.Method := "POST";
       http.URL := "https://api.perplexity.ai/chat/completions";
       http.ReqHeader := [("Authorization", "Bearer secret");
                          ("Content-Type", "application/json")];
       http.ReqBody :=
         json.JObject
           [("model", json.JString "llama-3.1-sonar-large-128k-chat");
            ("messages",
             json.JArray [json.JObject [("role", json.JString "user");
                                        ("content", json.JString "Tell me a joke.")]]);
            ("return_citations", json.JBool false);
            ("search_domain_filter", json.JNull);
            ("return_images", json.JBool false);
            ("return_related_questions", json.JBool false)] |} in
  http.Method sentOut = http.MethodPost /\
  http.URL sentOut = "https://api.perplexity.ai" ++ "/chat/completions" /\
  http.Ctx sentOut = sample.Background /\
  http.ReqHeader sentOut = [("Authorization", "Bearer " ++ "secret");
                            ("Content-Type", "application/json")] /\
  http.Get (http.ReqHeader sentOut) "Authorization" = "Bearer " ++ "secret" /\
  http.Get (http.ReqHeader sentOut) "Content-Type" = "application/json" /\
  MarshalJSON (sample.request None) = inr (http.ReqBody sentOut).
Proof.
  exact (outgoing_request sample.Ctx sample.Handler
           sample.unmarshalResponse sample.unmarshalApiError sample.parseURL
           (sample.clientAnswering (sample.response 200 "200 OK" "application/json" "{}"))
           sample.Background (sample.request None) sample.w0 _ eq_refl).
Defined.

Lemma NewClient_target_witness :
  "https://api.perplexity.ai/chat/completions" = DefaultBaseURL ++ "/chat/completions" /\
  "Bearer secret" = "Bearer " ++ "secret".
Proof.
  exact (NewClient_target sample.Ctx sample.Handler
           sample.unmarshalResponse sample.unmarshalApiError sample.parseURL
           (fun _ => inr (sample.response 200 "200 OK" "application/json" "{}"))
           "secret" None sample.Background (sample.request None) sample.w0 _ eq_refl).
Defined.

(** X9 at a transport that refuses the connection. *)
Lemma transport_error_returned_witness :
  ChatCompletion sample.unmarshalResponse sample.unmarshalApiError sample.parseURL
    (sample.clientFailing sample.connectionReset)
    sample.Background (sample.request (Some "print")) sample.w0
  = ((None, Some sample.connectionReset),
     {| exchanges :=
          exchanges sample.w0
          ++ [{| http.Ctx := sample.Background; http.Method := "POST";
                 http.URL := "https://api.perplexity.ai/chat/completions";
                 http.ReqHeader := [("Authorization", "Bearer secret");
                                    ("Content-Type", "application/json")];
                 http.ReqBody :=
                   json.JObject
                     [("model", json.JString "llama-3.1-sonar-large-128k-chat");
                      ("messages",
                       json.JArray [json.JObject [("role", json.JString "user");
                                                  ("content", json.JString "Tell me a joke.")]]);
                      ("return_citations", json.JBool false);
                      ("search_domain_filter", json.JNull);
                      ("return_images", json.JBool false);
                      ("return_related_questions", json.JBool false);
                      ("stream", json.JBool true)] |}];
        bodyReads := bodyReads sample.w0;
        bodyCloses := bodyCloses sample.w0;
        updates := updates sample.w0 |}).
Proof.
  exact (transport_error_returned sample.Ctx sample.Handler
           sample.unmarshalResponse sample.unmarshalApiError sample.parseURL
           (sample.clientFailing sample.connectionReset)
           sample.Background (sample.request (Some "print")) sample.w0 _
           sample.connectionReset eq_refl eq_refl).
Defined.

(** X10 at the request with optional fields set, its temperature outside
    no range that is checked. *)
Lemma well_formed_request_is_sent_witness :
  exists httpReq : http.Request sample.Ctx,
    exchanges
      (snd (ChatCompletion sample.unmarshalResponse sample.unmarshalApiError sample.parseURL
              (sample.clientAnswering (sample.response 200 "200 OK" "application/json" "{}"))
              sample.Background (sample.tuned None) sample.w0))
    = (exchanges sample.w0 ++ [httpReq])%list /\
    MarshalJSON (sample.tuned None) = inr (http.ReqBody httpReq).
Proof.
  apply (well_formed_request_is_sent sample.Ctx sample.Handler
           sample.unmarshalResponse sample.unmarshalApiError sample.parseURL
           (sample.clientAnswering (sample.response 200 "200 OK" "application/json" "{}"))
           sample.Background (sample.tuned None) sample.w0).
  - split; [discriminate|]. split.
    + exists [ {| msg_Role := MessageRoleSystem; msg_Content := "Be precise and concise." |} ].
      eexists. split; reflexivity.
    + left. reflexivity.
  - reflexivity.
  - reflexivity.
Defined.

(** X11 at the request whose temperature is NaN. *)
Lemma non_finite_float_refused_witness :
  ChatCompletion sample.unmarshalResponse sample.unmarshalApiError sample.parseURL
    (sample.clientAnswering (sample.response 200 "200 OK" "application/json" "{}"))
    sample.Background sample.feverish sample.w0
  = ((None,
      Some (json.MarshalerError "*perplexity.ChatCompletionRequest"
              (json.UnsupportedValueError PrimFloat.nan))),
     sample.w0).
Proof.
  exact (non_finite_float_refused sample.Ctx sample.Handler
           sample.unmarshalResponse sample.unmarshalApiError sample.parseURL
           (sample.clientAnswering (sample.response 200 "200 OK" "application/json" "{}"))
           sample.Background sample.feverish sample.w0 PrimFloat.nan eq_refl eq_refl).
Defined.

(** X12 at a JSON document cut short. *)
Lemma document_errors_returned_witness :
  fst (ChatCompletion sample.unmarshalResponse sample.unmarshalApiError sample.parseURL
         (sample.clientAnswering (sample.response 200 "200 OK" "application/json" "{"))
         sample.Background (sample.request (Some "print")) sample.w0)
  = (None, Some (sample.SyntaxError "unexpected end of JSON input")).
Proof.
  rewrite (document_errors_returned sample.Ctx sample.Handler
           sample.unmarshalResponse sample.unmarshalApiError sample.parseURL
           (sample.clientAnswering (sample.response 200 "200 OK" "application/json" "{"))
           sample.Background (sample.request (Some "print")) sample.w0 _ _
           (sample.SyntaxError "unexpected end of JSON input")
           eq_refl eq_refl eq_refl eq_refl (or_intror (conj eq_refl eq_refl))).
  reflexivity.
Defined.

(** X14 at a stream of one event that ends without the sentinel. *)
Lemma stream_ends_without_sentinel_witness :
  let out :=
    ChatCompletion sample.unmarshalResponse sample.unmarshalApiError sample.parseURL
      (sample.clientAnswering
         (sample.response 200 "200 OK" "text/event-stream"
            (feed [dataLine (sample.event "a"); ""] "")))
      sample.Background (sample.request (Some "print")) sample.w0 in
  fst out = (None, None) /\
  updates (snd out) = [("print", sample.withID "a")].
Proof.
  apply (stream_ends_without_sentinel sample.Ctx sample.Handler
           sample.unmarshalResponse sample.unmarshalApiError sample.parseURL
           (sample.clientAnswering
              (sample.response 200 "200 OK" "text/event-stream"
                 (feed [dataLine (sample.event "a"); ""] "")))
           sample.Background (sample.request (Some "print")) sample.w0 _ _ "print"
           [dataLine (sample.event "a"); ""]
           eq_refl eq_refl eq_refl eq_refl eq_refl).
  - repeat constructor; computed.
  - reflexivity.
  - reflexivity.
Defined.

(** X15 at the same stream, breaking off with a reset connection. *)
Lemma read_error_wrapped_witness :
  exists err : error,
    fst (ChatCompletion sample.unmarshalResponse sample.unmarshalApiError sample.parseURL
           (sample.clientAnswering
              (sample.broken "text/event-stream"
                 (feed [dataLine (sample.event "a"); ""] "") sample.connectionReset))
           sample.Background (sample.request (Some "print")) sample.w0)
    = (None, Some err) /\
    Error err = "error reading streaming response: " ++ Error sample.connectionReset /\
    Unwrap err = Some sample.connectionReset /\
    updates
      (snd (ChatCompletion sample.unmarshalResponse sample.unmarshalApiError sample.parseURL
              (sample.clientAnswering
                 (sample.broken "text/event-stream"
                    (feed [dataLine (sample.event "a"); ""] "") sample.connectionReset))
              sample.Background (sample.request (Some "print")) sample.w0))
    = [("print", sample.withID "a")].
Proof.
  apply (read_error_wrapped sample.Ctx sample.Handler
           sample.unmarshalResponse sample.unmarshalApiError sample.parseURL
           (sample.clientAnswering
              (sample.broken "text/event-stream"
                 (feed [dataLine (sample.event "a"); ""] "") sample.connectionReset))
           sample.Background (sample.request (Some "print")) sample.w0 _ _ "print"
           [dataLine (sample.event "a"); ""] sample.connectionReset
           eq_refl eq_refl eq_refl eq_refl eq_refl).
  - repeat constructor; computed.
  - reflexivity.
  - reflexivity.
Defined.

(** X16 at an event, then a comment line of 65537 bytes, then the
    sentinel. *)
Lemma long_line_aborts_stream_witness :
  let out :=
    ChatCompletion sample.unmarshalResponse sample.unmarshalApiError sample.parseURL
      (sample.clientAnswering
         (sample.response 200 "200 OK" "text/event-stream"
            (feed [dataLine (sample.event "a")]
               ((":" ++ sample.spaces 16) ++ LF ++ feed ["data: [DONE]"] ""))))
      sample.Background (sample.request (Some "print")) sample.w0 in
  fst out
  = (None, Some (fmt.Errorf_w "error reading streaming response: " bufio.ErrTooLong)) /\
  updates (snd out) = [("print", sample.withID "a")].
Proof.
  apply (long_line_aborts_stream sample.Ctx sample.Handler
           sample.unmarshalResponse sample.unmarshalApiError sample.parseURL
           (sample.clientAnswering
              (sample.response 200 "200 OK" "text/event-stream"
                 (feed [dataLine (sample.event "a")]
                    ((":" ++ sample.spaces 16) ++ LF ++ feed ["data: [DONE]"] ""))))
           sample.Background (sample.request (Some "print")) sample.w0 _ _ "print"
           [dataLine (sample.event "a")] (":" ++ sample.spaces 16)
           (LF ++ feed ["data: [DONE]"] "")
           eq_refl eq_refl eq_refl eq_refl eq_refl).
  - repeat constructor; computed.
  - vm_compute. reflexivity.
  - left. split; [eexists; reflexivity | vm_compute; discriminate].
  - reflexivity.
Defined.

